(** * PPT Professional Designer: profile scoring and template recommendation

    A shallow embedding of [backend/ppt_designer_backend.py] (class
    [PPTDesignerSystem]) and the properties of its scoring, matching,
    ranking and planning operations.

    Conventions of the embedding:
    - Python [float] scores are exact rationals ([Qc]); rounding of the
      binary representation is outside the model.  The conversion of an
      [int] to a [float], which raises [OverflowError] beyond the range of
      a double, is in the model ([float_of_int]).
    - A Python [dict] keyed by strings is a [gmap string _]; the few places
      where the code walks a dict literal in its written order use the
      explicit key list.
    - A Python exception is a value of [exception]; code that can raise
      returns a [result].
    - [str] is its UTF-8 byte string.  [str.lower] lowers the letters A-Z
      of an ASCII string; what it does to a string with other characters
      (Python's Unicode case mapping) is not part of the source and enters
      as the parameter [unicode_lower]. *)

From Stdlib Require Import Ascii String QArith Qcanon.
From stdpp Require Import gmap strings list fin_maps numbers sorting.

Local Open Scope string_scope.

(** ** Exceptions *)

Inductive exception :=
  | KeyError (key : string)
  | IndexError
  | AttributeError
  | TypeError
  | OverflowError.

Inductive result (A : Type) :=
  | Ok (a : A)
  | Raise (e : exception).
Arguments Ok {A} a.
Arguments Raise {A} e.

#[global] Instance result_ret : MRet result := λ A a, Ok a.
#[global] Instance result_bind : MBind result := λ A B f m,
  match m with Ok a => f a | Raise e => Raise e end.
#[global] Instance result_fmap : FMap result := λ A B f m,
  match m with Ok a => Ok (f a) | Raise e => Raise e end.

#[global] Instance exception_eq_dec : EqDecision exception.
Proof. solve_decision. Defined.
#[global] Instance result_eq_dec `{EqDecision A} : EqDecision (result A).
Proof. solve_decision. Defined.

Definition is_Ok {A} (r : result A) : Prop :=
  match r with Ok _ => True | Raise _ => False end.

(** ** Python values held by a response *)

Inductive value :=
  | VNone
  | VBool (b : bool)
  | VInt (n : Z)
  | VStr (s : string)
  | VList (l : list string).

#[global] Instance value_eq_dec : EqDecision value.
Proof. solve_decision. Defined.

(** [bool(v)]: the truth value of a Python object. *)
Definition truthy (v : value) : bool :=
  match v with
  | VNone => false
  | VBool b => b
  | VInt n => bool_decide (n ≠ 0%Z)
  | VStr s => bool_decide (s ≠ "")
  | VList l => bool_decide (l ≠ [])
  end.

(** ** Strings: [str.lower], [str.split], [str.join] *)

Definition lower_ascii (c : ascii) : ascii :=
  let n := nat_of_ascii c in
  if bool_decide (65 ≤ n ≤ 90)%nat then ascii_of_nat (n + 32)%nat else c.

Fixpoint lower (s : string) : string :=
  match s with
  | EmptyString => EmptyString
  | String c s' => String (lower_ascii c) (lower s')
  end.

(** [s.split(sep)] for a one-character separator. *)
Fixpoint split (sep : ascii) (s : string) : list string :=
  match s with
  | EmptyString => [EmptyString]
  | String c s' =>
      if decide (c = sep) then EmptyString :: split sep s'
      else match split sep s' with
           | [] => [String c EmptyString]
           | w :: ws => String c w :: ws
           end
  end.

(** [sep.join(l)]. *)
Fixpoint join (sep : string) (l : list string) : string :=
  match l with
  | [] => EmptyString
  | [w] => w
  | w :: ws => w +:+ sep +:+ join sep ws
  end.

(** Every character of the string is an ASCII character. *)
Definition is_ascii (s : string) : bool :=
  forallb (λ c, bool_decide (nat_of_ascii c < 128)%nat) (list_ascii_of_string s).

(** Python's case mapping of a string that is not all ASCII. *)
Class UnicodeLower := unicode_lower : string → string.

(** [s.lower()] *)
Definition str_lower `{!UnicodeLower} (s : string) : string :=
  if is_ascii s then lower s else unicode_lower s.

(** [v.lower()]: only [str] has the method. *)
Definition py_lower `{!UnicodeLower} (v : value) : result value :=
  match v with
  | VStr s => Ok (VStr (str_lower s))
  | _ => Raise AttributeError
  end.

(** [float(n)] for an [int], as the division [n / 10.0] makes it: the
    nearest double, or [OverflowError] when that is beyond the largest one
    (from [2^1024 - 2^970] on, which rounds to [2^1024]). *)
Definition FLOAT_LIMIT : Z := (2 ^ 1024 - 2 ^ 970)%Z.

Definition float_of_int (n : Z) : result Qc :=
  if bool_decide (Z.abs n < FLOAT_LIMIT)%Z then Ok (Qc_of_Z n)
  else Raise OverflowError.

(** [v in tags] for a list of strings: membership by [==]. *)
Definition py_in (v : value) (tags : list string) : bool :=
  match v with
  | VStr s => bool_decide (s ∈ tags)
  | _ => false
  end.

(** [hash(v)]: lists are unhashable and cannot be looked up in a dict. *)
Definition hashable (v : value) : bool :=
  match v with
  | VList _ => false
  | _ => true
  end.

(** [l[i]] with Python's negative indices. *)
Definition py_index {A} (l : list A) (i : Z) : result A :=
  let n := Z.of_nat (length l) in
  let j := if bool_decide (i < 0)%Z then (i + n)%Z else i in
  if bool_decide (0 ≤ j < n)%Z then
    match l !! Z.to_nat j with
    | Some a => Ok a
    | None => Raise IndexError
    end
  else Raise IndexError.

(** ** Data classes *)

Inductive QuestionType :=
  | SINGLE_CHOICE
  | MULTIPLE_CHOICE
  | TEXT
  | BOOLEAN
  | BOOLEAN_WITH_DETAILS.

Record Question := {
  question_id : string;
  question_text : string;
  question_type : QuestionType;
  required : bool;
  weight : Z;
  options : option (list string);
  follow_up : option string;
  placeholder : option string
}.

(** Time stamps are opaque ticks of the wall clock. *)
Definition datetime := Z.

Record UserResponse := {
  ur_question_id : string;
  response : value;
  additional_details : option string;
  timestamp : datetime
}.

Record TemplateRecommendation := {
  template_name : string;
  template_url : string;
  match_score : Qc;
  style_tags : list string;
  pros : list string;
  cons : list string;
  customization_difficulty : string;
  preview_image : option string
}.

#[global] Instance QuestionType_eq_dec : EqDecision QuestionType.
Proof. solve_decision. Defined.
#[global] Instance Question_eq_dec : EqDecision Question.
Proof. solve_decision. Defined.
#[global] Instance UserResponse_eq_dec : EqDecision UserResponse.
Proof. solve_decision. Defined.
#[global] Instance TemplateRecommendation_eq_dec : EqDecision TemplateRecommendation.
Proof. solve_decision. Defined.

(** ** The configuration document and the template dictionaries

    The JSON objects the code reads, with the keys it reads.  A key read
    with [d.get(k, default)] is optional; a key read with [d[k]] is a
    field, except for the two look-ups the code makes by a computed key
    ([weight_distribution] and [implementation_roadmaps]), which stay
    dictionaries. *)

Record QData := {
  qd_question_id : string;
  qd_question_text : string;
  qd_question_type : QuestionType;
  qd_required : bool;
  qd_weight : Z;
  qd_options : option (list string);
  qd_follow_up : option string;
  qd_placeholder : option string
}.

Record Roadmap := {
  rm_steps : option (list string);
  rm_resources : option value;
  rm_customization_level : option string
}.

Record SectionData := {
  section_id : string;
  strategic_questions : list QData;
  implementation_roadmaps : option (gmap string Roadmap)
}.

Record PhaseData := {
  sections : list SectionData
}.

Record Config := {
  workflow_phases : list PhaseData;
  weight_distribution : gmap string Qc
}.

Record Template := {
  t_name : string;
  t_url : string;
  t_style_tags : option (list string);
  t_color_schemes : option (list string);
  t_suitable_for : option (list string);
  t_compatible_versions : option (list string);
  t_pros : option (list string);
  t_cons : option (list string);
  t_difficulty : option string;
  t_preview_image : option string
}.

(** ** The system object *)

Record PPTDesignerSystem := {
  config : Config;
  user_responses : gmap string UserResponse;
  current_phase : Z;
  current_section : Z;
  recommendations : list TemplateRecommendation
}.

(** [__init__] after the configuration file has been read. *)
Definition init (cfg : Config) : PPTDesignerSystem :=
  {| config := cfg;
     user_responses := ∅;
     current_phase := 1;
     current_section := 1;
     recommendations := [] |}.

(** ** QuestionCatalog: [get_all_questions], [get_questions_by_phase],
    [_find_question] *)

Definition make_question (q_data : QData) : Question :=
  {| question_id := qd_question_id q_data;
     question_text := qd_question_text q_data;
     question_type := qd_question_type q_data;
     required := qd_required q_data;
     weight := qd_weight q_data;
     options := qd_options q_data;
     follow_up := qd_follow_up q_data;
     placeholder := qd_placeholder q_data |}.

(** The two inner loops shared by both getters: every section of a phase,
    every question of a section, in document order. *)
Definition phase_q_data (phase : PhaseData) : list QData :=
  flat_map strategic_questions (sections phase).

Definition all_q_data (cfg : Config) : list QData :=
  flat_map phase_q_data (workflow_phases cfg).

Definition get_all_questions (self : PPTDesignerSystem) : list Question :=
  map make_question (all_q_data (config self)).

Definition get_questions_by_phase (self : PPTDesignerSystem) (phase_id : Z)
    : result (list Question) :=
  phase ← py_index (workflow_phases (config self)) (phase_id - 1);
  mret (map make_question (phase_q_data phase)).

Definition _find_question (self : PPTDesignerSystem) (question_id : string)
    : option QData :=
  List.find (λ q_data, bool_decide (qd_question_id q_data = question_id))
            (all_q_data (config self)).

(** ** ResponseStore: [submit_response] *)

Definition submit_response (self : PPTDesignerSystem) (question_id : string)
    (response : value) (additional_details : option string) (now : datetime)
    : PPTDesignerSystem * bool :=
  let user_response :=
    {| ur_question_id := question_id;
       response := response;
       additional_details := additional_details;
       timestamp := now |} in
  ({| config := config self;
      user_responses := <[question_id := user_response]> (user_responses self);
      current_phase := current_phase self;
      current_section := current_section self;
      recommendations := recommendations self |},
   true).

(** ** ProfileScorer: [calculate_profile_score] *)

Local Open Scope Qc_scope.

(** [min(a, b)] of Python: [b] when [b < a], else [a]. *)
Definition py_min (a b : Qc) : Qc := if decide (b < a) then b else a.

(** The keys of the [scores] literal, in the order they are written. *)
Definition categories : list string :=
  [ "content_goals"; "audience_context"; "design_preferences";
    "technical_requirements"; "timeline_resources"; "scalability" ].

Definition initial_scores : gmap string Qc :=
  list_to_map (map (λ c, (c, 0)) categories).

Definition category_mapping : gmap string string :=
  list_to_map
    [ ("q1.1", "content_goals");
      ("q1.2", "audience_context");
      ("q1.3", "design_preferences");
      ("q2.1", "design_preferences");
      ("q2.2", "technical_requirements");
      ("q3.1", "content_goals");
      ("q3.2", "audience_context");
      ("q4.1", "technical_requirements");
      ("q4.2", "technical_requirements");
      ("q5.1", "timeline_resources");
      ("q5.2", "scalability") ].

(** ['.'.join(question_id.split('.')[:2])] *)
Definition prefix_of (question_id : string) : string :=
  join "." (take 2 (split "." question_id)).

(** One turn of the loop over [user_responses.items()]. *)
Definition score_step (self : PPTDesignerSystem) (scores : gmap string Qc)
    (item : string * UserResponse) : result (gmap string Qc) :=
  let '(question_id, response_) := item in
  match category_mapping !! prefix_of question_id with
  | Some category =>
      if bool_decide (category ≠ "") then
        match _find_question self question_id with
        | Some question =>
            if truthy (response response_) then
              weight_ ← float_of_int (qd_weight question);
              let score_contribution := weight_ / Qc_of_Z 10 in
              mret (alter (λ s, s + score_contribution) category scores)
            else mret scores
        | None => mret scores
        end
      else mret scores
  | None => mret scores
  end.

(** The loop itself: the first turn that raises ends it. *)
Fixpoint score_loop (self : PPTDesignerSystem) (scores : gmap string Qc)
    (items : list (string * UserResponse)) : result (gmap string Qc) :=
  match items with
  | [] => Ok scores
  | item :: rest =>
      scores' ← score_step self scores item;
      score_loop self scores' rest
  end.

(** The normalisation loop [for category in scores]. *)
Fixpoint normalize (max_scores : gmap string Qc) (cats : list string)
    (scores : gmap string Qc) : result (gmap string Qc) :=
  match cats with
  | [] => Ok scores
  | category :: cats' =>
      match max_scores !! category with
      | None => Raise (KeyError category)
      | Some max_score =>
          match scores !! category with
          | None => Raise (KeyError category)
          | Some s =>
              normalize max_scores cats'
                (<[category := py_min (s * 2) max_score]> scores)
          end
      end
  end.

(** The loop runs over the stored items; addition of rationals does not
    depend on the order in which the dict yields them, and every turn that
    raises raises the same exception. *)
Definition calculate_profile_score (self : PPTDesignerSystem)
    : result (gmap string Qc) :=
  let max_scores := weight_distribution (config self) in
  scores ← score_loop self initial_scores (map_to_list (user_responses self));
  normalize max_scores categories scores.

(** ** TemplateMatcher: [calculate_template_match_score] *)

Definition STYLE_Q : string := "q2.1.1".
Definition COLOR_Q : string := "q1.3.2".
Definition GOAL_Q : string := "q1.1.1".
Definition VERSION_Q : string := "q2.2.1".

(** [template_data.get(key, [])] *)
Definition get_tags (field : option (list string)) : list string :=
  default [] field.

(** [if user_style and user_style.response.lower() in tags]: a stored
    [UserResponse] object is always true, so the method call is made
    whenever the response exists. *)
Definition style_match `{!UnicodeLower} (self : PPTDesignerSystem)
    (template_data : Template) : result Qc :=
  match user_responses self !! STYLE_Q with
  | Some user_style =>
      lowered ← py_lower (response user_style);
      mret (if py_in lowered (get_tags (t_style_tags template_data))
            then Qc_of_Z 25 else 0)
  | None => mret 0
  end.

(** The three factors compared without a method call. *)
Definition plain_match (self : PPTDesignerSystem) (qid : string)
    (tags : option (list string)) (points : Qc) : Qc :=
  match user_responses self !! qid with
  | Some user_answer =>
      if py_in (response user_answer) (get_tags tags) then points else 0
  | None => 0
  end.

Definition color_match (self : PPTDesignerSystem) (template_data : Template) : Qc :=
  plain_match self COLOR_Q (t_color_schemes template_data) (Qc_of_Z 20).

Definition functionality_match (self : PPTDesignerSystem) (template_data : Template) : Qc :=
  plain_match self GOAL_Q (t_suitable_for template_data) (Qc_of_Z 30).

Definition technical_compatibility (self : PPTDesignerSystem) (template_data : Template) : Qc :=
  plain_match self VERSION_Q (t_compatible_versions template_data) (Qc_of_Z 25).

(** The profile scores are computed first; their sum [total_score] is not
    used afterwards, but an exception of that call ends this one. *)
Definition calculate_template_match_score `{!UnicodeLower}
    (self : PPTDesignerSystem) (template_data : Template) : result Qc :=
  profile_scores ← calculate_profile_score self;
  style ← style_match self template_data;
  let color := color_match self template_data in
  let functionality := functionality_match self template_data in
  let technical := technical_compatibility self template_data in
  let final_score := 0 + style + color + functionality + technical in
  mret (py_min final_score (Qc_of_Z 100)).

(** ** RecommendationRanker: [generate_recommendations] *)

Definition make_recommendation (template : Template) (score : Qc)
    : TemplateRecommendation :=
  {| template_name := t_name template;
     template_url := t_url template;
     match_score := score;
     style_tags := get_tags (t_style_tags template);
     pros := get_tags (t_pros template);
     cons := get_tags (t_cons template);
     customization_difficulty := default "medium" (t_difficulty template);
     preview_image := t_preview_image template |}.

(** The loop [for template in templates_database]: the first template whose
    score raises ends the call. *)
Fixpoint build_recommendations `{!UnicodeLower} (self : PPTDesignerSystem)
    (templates_database : list Template) : result (list TemplateRecommendation) :=
  match templates_database with
  | [] => Ok []
  | template :: rest =>
      score ← calculate_template_match_score self template;
      recs ← build_recommendations self rest;
      mret (make_recommendation template score :: recs)
  end.

(** [list.sort(key=lambda x: x.match_score, reverse=True)]: the built-in
    sort is stable, also when reversed, so it is the insertion of every
    element in front of the first one that is not strictly better. *)
Fixpoint insert_desc (x : TemplateRecommendation)
    (l : list TemplateRecommendation) : list TemplateRecommendation :=
  match l with
  | [] => [x]
  | y :: l' =>
      if decide (match_score x < match_score y) then y :: insert_desc x l'
      else x :: l
  end.

Definition sort_by_score_desc (l : list TemplateRecommendation)
    : list TemplateRecommendation :=
  foldr insert_desc [] l.

Definition set_recommendations (self : PPTDesignerSystem)
    (recs : list TemplateRecommendation) : PPTDesignerSystem :=
  {| config := config self;
     user_responses := user_responses self;
     current_phase := current_phase self;
     current_section := current_section self;
     recommendations := recs |}.

(** Returns the system after the call and the returned list.  The argument
    list is only read. *)
Definition generate_recommendations `{!UnicodeLower}
    (self : PPTDesignerSystem) (templates_database : list Template)
    : result (PPTDesignerSystem * list TemplateRecommendation) :=
  recs ← build_recommendations self templates_database;
  let sorted := sort_by_score_desc recs in
  mret (set_recommendations self sorted, take 10 sorted).

(** ** PlanGenerator: [generate_implementation_plan] *)

Record Plan := {
  timeline : value;
  experience_level : value;
  phases : list string;
  resources_needed : list value;
  estimated_hours : Z;
  customization_level : option string
}.

Definition TIMELINE_Q : string := "q5.1.1".
Definition EXPERIENCE_Q : string := "q5.1.2".

Definition STANDARD_KEY : string := "standard_timeline_1week".

Definition timeline_keys : gmap string string :=
  list_to_map
    [ ("1일", "tight_timeline_1day");
      ("1주", STANDARD_KEY);
      ("1개월", "extended_timeline_1month") ].

(** [{...}.get(v, 'standard_timeline_1week')]: the key has to be hashable;
    only a string can equal one of the three keys. *)
Definition timeline_key_of (v : value) : result string :=
  if hashable v then
    match v with
    | VStr s => Ok (default STANDARD_KEY (timeline_keys !! s))
    | _ => Ok STANDARD_KEY
    end
  else Raise TypeError.

(** [config['workflow_phases'][4]['sections'][0]['implementation_roadmaps']] *)
Definition roadmaps_of (cfg : Config) : result (gmap string Roadmap) :=
  phase ← py_index (workflow_phases cfg) 4;
  section ← py_index (sections phase) 0;
  match implementation_roadmaps section with
  | Some roadmaps => Ok roadmaps
  | None => Raise (KeyError "implementation_roadmaps")
  end.

Definition generate_implementation_plan (self : PPTDesignerSystem) : result Plan :=
  let timeline_ := user_responses self !! TIMELINE_Q in
  let experience := user_responses self !! EXPERIENCE_Q in
  let plan_timeline := from_option response (VStr "1주") timeline_ in
  let plan_experience := from_option response (VStr "중급자") experience in
  match timeline_ with
  | Some t =>
      timeline_key ← timeline_key_of (response t);
      roadmaps ← roadmaps_of (config self);
      (* [.get(timeline_key, {})]: a missing roadmap reads as the empty dict *)
      let roadmap := roadmaps !! timeline_key in
      mret {| timeline := plan_timeline;
              experience_level := plan_experience;
              phases := default [] (roadmap ≫= rm_steps);
              resources_needed := [default (VStr "") (roadmap ≫= rm_resources)];
              estimated_hours := 0;
              customization_level :=
                Some (default "moderate" (roadmap ≫= rm_customization_level)) |}
  | None =>
      mret {| timeline := plan_timeline;
              experience_level := plan_experience;
              phases := [];
              resources_needed := [];
              estimated_hours := 0;
              customization_level := None |}
  end.

(** ** [export_user_profile] and [get_progress_percentage] *)

Record ExportedResponse := {
  ex_response : value;
  ex_details : option string;
  ex_timestamp : datetime
}.

Record ExportedRecommendation := {
  ex_name : string;
  ex_url : string;
  ex_score : Qc
}.

Record UserProfile := {
  profile_id : datetime;
  created_at : datetime;
  responses : gmap string ExportedResponse;
  profile_scores : gmap string Qc;
  profile_recommendations : list ExportedRecommendation
}.

Definition export_response (resp : UserResponse) : ExportedResponse :=
  {| ex_response := response resp;
     ex_details := additional_details resp;
     ex_timestamp := timestamp resp |}.

Definition export_recommendation (rec : TemplateRecommendation)
    : ExportedRecommendation :=
  {| ex_name := template_name rec;
     ex_url := template_url rec;
     ex_score := match_score rec |}.

(** The two readings of the clock are arguments; their rendering as text
    ([strftime], [isoformat]) is left to the caller. *)
Definition export_user_profile (self : PPTDesignerSystem)
    (now_id now_created : datetime) : result UserProfile :=
  scores ← calculate_profile_score self;
  mret {| profile_id := now_id;
          created_at := now_created;
          responses := export_response <$> user_responses self;
          profile_scores := scores;
          profile_recommendations :=
            map export_recommendation (take 5 (recommendations self)) |}.

Definition get_progress_percentage (self : PPTDesignerSystem) : Qc :=
  let all_questions := get_all_questions self in
  let required_questions := filter (λ q, required q = true) all_questions in
  let answered_required :=
    length (filter (λ q, is_Some (user_responses self !! question_id q))
                   required_questions) in
  match required_questions with
  | [] => Qc_of_Z 100
  | _ :: _ =>
      Qc_of_Z (Z.of_nat answered_required)
        / Qc_of_Z (Z.of_nat (length required_questions)) * Qc_of_Z 100
  end.

(** ** Counting as the specification words it

    The required questions of the catalog, and those of them whose id has a
    stored response, counted on the configuration document itself. *)

Definition total_required (cfg : Config) : nat :=
  length (filter (λ q_data, qd_required q_data = true) (all_q_data cfg)).

Definition answered_required (cfg : Config) (store : gmap string UserResponse)
    : nat :=
  length (filter (λ q_data, qd_required q_data = true
                            ∧ is_Some (store !! qd_question_id q_data))
                 (all_q_data cfg)).

(** The category total as the specification words it: the sum of
    [weight / 10] over the stored responses whose two-level prefix maps to
    the category, whose question is found in the catalog and whose value is
    true. *)

Definition sum_Qc (l : list Qc) : Qc := foldr Qcplus 0 l.

Definition contributes (self : PPTDesignerSystem) (category : string)
    (item : string * UserResponse) : Prop :=
  category_mapping !! prefix_of item.1 = Some category
  ∧ is_Some (_find_question self item.1)
  ∧ truthy (response item.2) = true.

#[global] Instance contributes_dec self category item :
  Decision (contributes self category item).
Proof. unfold contributes. apply _. Defined.

Definition contributing (self : PPTDesignerSystem) (category : string)
    : list (string * UserResponse) :=
  filter (contributes self category) (map_to_list (user_responses self)).

Definition weight_of (self : PPTDesignerSystem) (question_id : string) : Z :=
  from_option qd_weight 0%Z (_find_question self question_id).

Definition tenth_of_weight (self : PPTDesignerSystem)
    (item : string * UserResponse) : Qc :=
  Qc_of_Z (weight_of self item.1) / Qc_of_Z 10.

Definition category_total (self : PPTDesignerSystem) (category : string) : Qc :=
  sum_Qc (map (tenth_of_weight self) (contributing self category)).

(** What one turn of the scoring loop adds to the score of a category. *)
Definition turn_share (self : PPTDesignerSystem) (category : string)
    (item : string * UserResponse) : Qc :=
  if decide (contributes self category item) then tenth_of_weight self item
  else 0.

(** The configuration names a maximum for each of the six categories. *)
Definition covers_categories (cfg : Config) : Prop :=
  ∀ c, c ∈ categories → is_Some (weight_distribution cfg !! c).

(** Every weight of the catalog converts to a [float]. *)
Definition float_weights (cfg : Config) : Prop :=
  Forall (λ q_data, (Z.abs (qd_weight q_data) < FLOAT_LIMIT)%Z) (all_q_data cfg).

(** The turn of the scoring loop for this item raises: the item
    contributes to a category and the weight of its question does not
    convert. *)
Definition overflows (self : PPTDesignerSystem) (item : string * UserResponse)
    : Prop :=
  (∃ category, contributes self category item)
  ∧ ¬ (Z.abs (weight_of self item.1) < FLOAT_LIMIT)%Z.


(** The four designated questions of the matcher. *)
Definition designated : list string := [STYLE_Q; COLOR_Q; GOAL_Q; VERSION_Q].

(** The answer stored for the design-style question, if any, is text. *)
Definition style_is_text (self : PPTDesignerSystem) : Prop :=
  ∀ r, user_responses self !! STYLE_Q = Some r → ∃ s, response r = VStr s.


(** The plan built from the roadmap stored under [key]. *)
Definition roadmap_plan (self : PPTDesignerSystem) (label : value)
    (roadmaps : gmap string Roadmap) (key : string) : Plan :=
  {| timeline := label;
     experience_level :=
       from_option response (VStr "중급자") (user_responses self !! EXPERIENCE_Q);
     phases := default [] (roadmaps !! key ≫= rm_steps);
     resources_needed := [default (VStr "") (roadmaps !! key ≫= rm_resources)];
     estimated_hours := 0;
     customization_level :=
       Some (default "moderate" (roadmaps !! key ≫= rm_customization_level)) |}.


(** The order of a ranked list: no later entry scores higher. *)
Definition by_score_desc (a b : TemplateRecommendation) : Prop :=
  (match_score b ≤ match_score a)%Qc.


(** [rec] is the recommendation the loop builds for [template]. *)
Definition recommends `{!UnicodeLower} (self : PPTDesignerSystem)
    (template : Template) (rec : TemplateRecommendation) : Prop :=
  ∃ score, calculate_template_match_score self template = Ok score
           ∧ rec = make_recommendation template score.

(** ** Sample data used by the examples *)

Definition sample_question (id : string) (req : bool) (w : Z) : QData :=
  {| qd_question_id := id;
     qd_question_text := "";
     qd_question_type := SINGLE_CHOICE;
     qd_required := req;
     qd_weight := w;
     qd_options := None;
     qd_follow_up := None;
     qd_placeholder := None |}.

Definition sample_section (qs : list QData) : SectionData :=
  {| section_id := "s"; strategic_questions := qs;
     implementation_roadmaps := None |}.

Definition sample_phase (qs : list QData) : PhaseData :=
  {| sections := [sample_section qs] |}.

(** Every category capped at the same maximum. *)
Definition uniform_weights (mx : Z) : gmap string Qc :=
  list_to_map (map (λ c, (c, Qc_of_Z mx)) categories).

(** Two phases: [q1.1.1] in the first, [q2.1.1] in the second. *)
Definition two_phase_config : Config :=
  {| workflow_phases :=
       [ sample_phase [sample_question "q1.1.1" true 8];
         sample_phase [sample_question "q2.1.1" true 6] ];
     weight_distribution := uniform_weights 20 |}.

(** [submit_response] with no details at tick 0, for building stores. *)
Definition answered (self : PPTDesignerSystem) (question_id : string)
    (v : value) : PPTDesignerSystem :=
  (submit_response self question_id v None 0%Z).1.

(** The scenario of the specification: [q1.1.1] (weight 8) and [q1.2.1]
    (weight 6), every maximum 20, and [q1.1.1] answered. *)
Definition scenario_config : Config :=
  {| workflow_phases :=
       [ sample_phase [sample_question "q1.1.1" true 8;
                       sample_question "q1.2.1" true 6] ];
     weight_distribution := uniform_weights 20 |}.

Definition scenario_system : PPTDesignerSystem :=
  answered (init scenario_config) "q1.1.1" (VStr "교육").




(** The template of the specification's scenario, with the given style
    tags. *)
Definition sample_template (name : string) (tags : list string) : Template :=
  {| t_name := name;
     t_url := "https://example.com/" +:+ name;
     t_style_tags := Some tags;
     t_color_schemes := Some ["beige_orange"];
     t_suitable_for := Some ["교육"];
     t_compatible_versions := Some ["2021"];
     t_pros := None;
     t_cons := None;
     t_difficulty := None;
     t_preview_image := None |}.

(** Style, color and goal answered as in the scenario; no version. *)
Definition styled_system (style : value) : PPTDesignerSystem :=
  answered (answered (answered (init scenario_config) STYLE_Q style)
                     COLOR_Q (VStr "beige_orange"))
           GOAL_Q (VStr "교육").

(** The scenario with the weight of [q1.2.1] beyond the range of a float. *)
Definition huge_weight_config : Config :=
  {| workflow_phases :=
       [ sample_phase [sample_question "q1.1.1" true 8;
                       sample_question "q1.2.1" true (10 ^ 310)] ];
     weight_distribution := uniform_weights 20 |}.

(** Style, color and goal answered on that configuration, and then the
    question of the huge weight as well. *)
Definition styled_on_huge (style : value) : PPTDesignerSystem :=
  answered (answered (answered (init huge_weight_config) STYLE_Q style)
                     COLOR_Q (VStr "beige_orange"))
           GOAL_Q (VStr "교육").

Definition overflowing_system (style : value) : PPTDesignerSystem :=
  answered (styled_on_huge style) "q1.2.1" (VStr "학생").


Definition sample_roadmap (steps : list string) (level : string) : Roadmap :=
  {| rm_steps := Some steps;
     rm_resources := Some (VList ["template"; "images"]);
     rm_customization_level := Some level |}.

Definition sample_roadmaps : gmap string Roadmap :=
  list_to_map
    [ ("tight_timeline_1day", sample_roadmap ["select"; "fill"] "minimal");
      (STANDARD_KEY, sample_roadmap ["select"; "adapt"; "fill"; "review"] "moderate");
      ("extended_timeline_1month",
       sample_roadmap ["research"; "design"; "build"; "test"; "polish"] "extensive") ].

(** Five phases; the first section of the fifth carries the roadmaps. *)
Definition plan_config : Config :=
  {| workflow_phases :=
       replicate 4 (sample_phase [])
       ++ [ {| sections :=
                 [ {| section_id := "5.1";
                      strategic_questions :=
                        [ sample_question TIMELINE_Q true 7;
                          sample_question EXPERIENCE_Q false 5 ];
                      implementation_roadmaps := Some sample_roadmaps |} ] |} ];
     weight_distribution := uniform_weights 20 |}.

(** Four templates; the second and the fourth carry the tag [minimal]. *)
Definition sample_catalog : list Template :=
  [ sample_template "a" ["Minimal"];
    sample_template "b" ["minimal"];
    sample_template "c" ["modern"];
    sample_template "d" ["minimal"; "modern"] ].

(** ** [get_customized_direction]

    The section objects of the document may carry a key
    [customized_directions], which the records above do not list; the
    function takes the reading [section.get('customized_directions', {})]
    as [directions_of] (no entry: the empty dict).  The result [None] is
    the empty dict the code returns when nothing is configured. *)

Fixpoint direction_in_sections {D} (directions_of : SectionData → gmap string D)
    (secs : list SectionData) (wanted : string) (user_choice : string)
    : option D :=
  match secs with
  | [] => None
  | section :: rest =>
      if decide (section_id section = wanted)
      then directions_of section !! user_choice
      else direction_in_sections directions_of rest wanted user_choice
  end.

Definition get_customized_direction {D}
    (directions_of : SectionData → gmap string D)
    (self : PPTDesignerSystem) (phase_id : Z) (wanted : string)
    (user_choice : string) : result (option D) :=
  phase ← py_index (workflow_phases (config self)) (phase_id - 1);
  mret (direction_in_sections directions_of (sections phase) wanted user_choice).

(** ** TemplateSearchEngine *)

(** The list [search_templates] returns for every query. *)
Definition mock_templates : list Template :=
  [ {| t_name := "Minimal Beige Professional";
       t_url := "https://example.com/template1";
       t_style_tags := Some ["minimal"; "modern"; "professional"];
       t_color_schemes := Some ["beige_orange"];
       t_suitable_for := Some ["교육"; "정보 전달"];
       t_compatible_versions := Some ["2019"; "2021"; "Microsoft 365"];
       t_pros := Some ["깔끔한 디자인"; "쉬운 편집"; "다양한 레이아웃"];
       t_cons := Some ["애니메이션 제한적"];
       t_difficulty := Some "easy";
       t_preview_image := Some "https://example.com/preview1.jpg" |};
    {| t_name := "Modern Education Template";
       t_url := "https://example.com/template2";
       t_style_tags := Some ["modern"; "creative"; "educational"];
       t_color_schemes := Some ["beige_orange"; "blue_gray"];
       t_suitable_for := Some ["교육"; "발표"];
       t_compatible_versions := Some ["2016"; "2019"; "2021"; "Microsoft 365"];
       t_pros := Some ["학생 친화적"; "시각적 요소 풍부"; "접근성 우수"];
       t_cons := Some ["파일 크기 큼"];
       t_difficulty := Some "medium";
       t_preview_image := Some "https://example.com/preview2.jpg" |} ].

Definition search_templates {P} (search_params : P) : list Template :=
  mock_templates.

Definition filter_by_style `{!UnicodeLower} (templates : list Template)
    (style : string) : list Template :=
  filter (λ t, str_lower style ∈ get_tags (t_style_tags t)) templates.

Definition filter_by_color (templates : list Template) (color_scheme : string)
    : list Template :=
  filter (λ t, color_scheme ∈ get_tags (t_color_schemes t)) templates.

(** ** The submission endpoints of [api_endpoints.py]

    The bodies of the endpoints [submit_response] (here
    [api_submit_response]) and [submit_batch_responses] once the system
    object exists.  An HTTP reply is its status with the fields of
    its JSON body; a JSON key that is missing or [null] reads as [None]. *)

Record Submission := {
  sub_question_id : option string;
  sub_response : value;
  sub_additional_details : option string
}.

(** [question_id and response is not None] *)
Definition accepted (item : Submission) : bool :=
  match sub_question_id item with
  | Some question_id =>
      bool_decide (question_id ≠ "") && bool_decide (sub_response item ≠ VNone)
  | None => false
  end.

Inductive SubmitReply :=
  | SubmitBadRequest
  | SubmitOk (success : bool) (question_id : string) (progress : Qc).

Definition api_submit_response (system : PPTDesignerSystem) (data : Submission)
    (now : datetime) : PPTDesignerSystem * SubmitReply :=
  match sub_question_id data with
  | Some question_id =>
      if accepted data then
        let '(system', success) :=
          submit_response system question_id (sub_response data)
                          (sub_additional_details data) now in
        (system', SubmitOk success question_id (get_progress_percentage system'))
      else (system, SubmitBadRequest)
  | None => (system, SubmitBadRequest)
  end.

Inductive BatchReply :=
  | BatchBadRequest
  | BatchOk (submitted_count total_count : nat) (progress : Qc).

(** The loop [for resp in responses]; [clock k] is the reading of the
    clock by the [k]-th call of [submit_response], one per stored item. *)
Fixpoint batch_loop (system : PPTDesignerSystem) (responses : list Submission)
    (clock : nat → datetime) (submitted_count : nat)
    : PPTDesignerSystem * nat :=
  match responses with
  | [] => (system, submitted_count)
  | resp :: rest =>
      match sub_question_id resp with
      | Some question_id =>
          if accepted resp then
            batch_loop
              (submit_response system question_id (sub_response resp)
                 (sub_additional_details resp) (clock submitted_count)).1
              rest clock (S submitted_count)
          else batch_loop system rest clock submitted_count
      | None => batch_loop system rest clock submitted_count
      end
  end.

Definition submit_batch_responses (system : PPTDesignerSystem)
    (responses : list Submission) (clock : nat → datetime)
    : PPTDesignerSystem * BatchReply :=
  match responses with
  | [] => (system, BatchBadRequest)
  | _ :: _ =>
      let '(system', submitted_count) := batch_loop system responses clock 0 in
      (system',
       BatchOk submitted_count (length responses)
               (get_progress_percentage system'))
  end.

(** * Properties *)

(** ** ResponseStore *)

Section submit.
Context (self : PPTDesignerSystem).

Lemma submit_response_lookup X v d t :
  user_responses (submit_response self X v d t).1 !! X
  = Some {| ur_question_id := X; response := v;
            additional_details := d; timestamp := t |}.
Proof. simpl. by rewrite lookup_insert_eq. Qed.

Lemma submit_response_other X Y v d t :
  Y ≠ X →
  user_responses (submit_response self X v d t).1 !! Y
  = user_responses self !! Y.
Proof. intros Hne. simpl. by rewrite lookup_insert_ne. Qed.
End submit.

Lemma filter_none {A} (P : A → Prop) `{∀ x, Decision (P x)} (l : list A) :
  Forall (λ x, ¬ P x) l → filter P l = [].
Proof.
  induction 1 as [|x l Hx _ IH]; [done|]. by rewrite filter_cons_False.
Qed.

(** In a store every id is bound once: the entries listed for an id that
    is present are a single one. *)
Lemma entries_of_present (m : gmap string UserResponse) (X : string) (r : UserResponse) :
  m !! X = Some r →
  filter (λ kv, kv.1 = X) (map_to_list m) = [(X, r)].
Proof.
  intros HX. apply Permutation_singleton_r.
  rewrite <-(insert_delete_id m X r HX) at 1.
  rewrite map_to_list_insert by apply lookup_delete_eq.
  rewrite filter_cons_True by done.
  rewrite filter_none; [done|].
  apply Forall_forall. intros [k v] Hkv. simpl. intros ->.
  apply elem_of_map_to_list in Hkv. by rewrite lookup_delete_eq in Hkv.
Qed.

(** C8. [submit_response] always stores or overwrites and returns [True]:
    after submitting id [X] twice, the store holds exactly one response for
    [X], with the second value and its details; the system is the one that
    the second submission alone would have produced (nothing of the first
    is kept), and every other id is bound as before. *)
Theorem submit_response_last_write_wins
    (self : PPTDesignerSystem) (X : string)
    (v1 v2 : value) (d1 d2 : option string) (t1 t2 : datetime) :
  let first := submit_response self X v1 d1 t1 in
  let second := submit_response first.1 X v2 d2 t2 in
  let r2 := {| ur_question_id := X; response := v2;
               additional_details := d2; timestamp := t2 |} in
  first.2 = true ∧ second.2 = true
  ∧ user_responses second.1 !! X = Some r2
  ∧ filter (λ kv, kv.1 = X) (map_to_list (user_responses second.1)) = [(X, r2)]
  ∧ second.1 = (submit_response self X v2 d2 t2).1
  ∧ (∀ Y, Y ≠ X → user_responses second.1 !! Y = user_responses self !! Y).
Proof.
  intros first second r2. split_and!; try done.
  - apply submit_response_lookup.
  - apply entries_of_present, submit_response_lookup.
  - unfold second, first, submit_response; simpl. f_equal. apply insert_insert_eq.
  - intros Y HY. unfold second.
    rewrite submit_response_other by done. by apply submit_response_other.
Qed.

Lemma length_filter_map {A B} (f : A → B) (P : B → Prop)
    `{∀ y, Decision (P y)} (l : list A) :
  length (filter P (map f l)) = length (filter (λ x, P (f x)) l).
Proof.
  induction l as [|x l IH]; [done|]. simpl.
  rewrite !filter_cons. case_decide; simpl; by rewrite IH.
Qed.

Lemma filter_filter_and {A} (P Q : A → Prop)
    `{∀ x, Decision (P x)} `{∀ x, Decision (Q x)} (l : list A) :
  filter Q (filter P l) = filter (λ x, P x ∧ Q x) l.
Proof.
  induction l as [|x l IH]; [done|].
  rewrite (filter_cons P), (filter_cons (λ x, P x ∧ Q x)).
  destruct (decide (P x)) as [HP|HP].
  - rewrite filter_cons. destruct (decide (Q x)) as [HQ|HQ].
    + rewrite decide_True by done. by rewrite IH.
    + rewrite decide_False by tauto. done.
  - rewrite decide_False by tauto. done.
Qed.

Lemma required_questions_length (self : PPTDesignerSystem) :
  length (filter (λ q, required q = true) (get_all_questions self))
  = total_required (config self).
Proof. unfold get_all_questions, total_required. apply length_filter_map. Qed.

Lemma answered_questions_length (self : PPTDesignerSystem) :
  length (filter (λ q, is_Some (user_responses self !! question_id q))
                 (filter (λ q, required q = true) (get_all_questions self)))
  = answered_required (config self) (user_responses self).
Proof.
  rewrite filter_filter_and. unfold get_all_questions, answered_required.
  etrans; [apply length_filter_map|].
  done.
Qed.

(** C9. [get_progress_percentage] is the number of required questions
    whose id has a stored response, divided by the number of required
    questions, times 100; it is exactly 100 when no question is required,
    whatever the store holds. *)
Theorem get_progress_percentage_spec (self : PPTDesignerSystem) :
  get_progress_percentage self
  = if decide (total_required (config self) = 0%nat) then Qc_of_Z 100
    else Qc_of_Z (Z.of_nat (answered_required (config self) (user_responses self)))
         / Qc_of_Z (Z.of_nat (total_required (config self)))
         * Qc_of_Z 100.
Proof.
  unfold get_progress_percentage.
  pose proof (required_questions_length self) as Htot.
  pose proof (answered_questions_length self) as Hans.
  destruct (filter (λ q, required q = true) (get_all_questions self))
    as [|q0 qs] eqn:Hreq.
  - simpl in Htot. rewrite <-Htot. by rewrite decide_True.
  - rewrite <-Htot, <-Hans. by rewrite decide_False.
Qed.

(** No required question in the catalog: the progress is 100 for every
    store. *)
Lemma get_progress_percentage_no_required (self : PPTDesignerSystem) :
  Forall (λ q_data, qd_required q_data = false) (all_q_data (config self)) →
  get_progress_percentage self = Qc_of_Z 100.
Proof.
  intros Hnone. rewrite get_progress_percentage_spec.
  rewrite decide_True; [done|]. unfold total_required.
  rewrite filter_none; [done|].
  eapply Forall_impl; [exact Hnone|]. simpl. intros q ->. done.
Qed.

(** ** QuestionCatalog *)

Lemma py_index_in_range {A} (l : list A) (i : nat) (a : A) :
  l !! i = Some a → py_index l (Z.of_nat i) = Ok a.
Proof.
  intros Hi. pose proof (lookup_lt_Some _ _ _ Hi) as Hlt.
  unfold py_index; cbv zeta. repeat case_bool_decide; try lia.
  by rewrite Nat2Z.id, Hi.
Qed.

Lemma py_index_past_end {A} (l : list A) (i : Z) :
  (Z.of_nat (length l) ≤ i)%Z → py_index l i = Raise IndexError.
Proof.
  intros Hi. unfold py_index; cbv zeta.
  repeat case_bool_decide; try lia; done.
Qed.

Lemma py_index_minus_one {A} (l : list A) :
  py_index l (-1) = from_option Ok (Raise IndexError) (last l).
Proof.
  unfold py_index; cbv zeta.
  destruct l as [|a l _] using rev_ind.
  - done.
  - rewrite last_snoc, length_app. simpl.
    repeat case_bool_decide; try lia.
    replace (Z.to_nat (-1 + Z.of_nat (length l + 1))) with (length l) by lia.
    by rewrite list_lookup_middle.
Qed.

(** A loaded phase, asked for by its 1-based number, yields its questions
    in document order. *)
Lemma get_questions_by_phase_loaded (self : PPTDesignerSystem) (i : nat)
    (phase : PhaseData) :
  workflow_phases (config self) !! i = Some phase →
  get_questions_by_phase self (Z.of_nat i + 1)
  = Ok (map make_question (phase_q_data phase)).
Proof.
  intros Hi. unfold get_questions_by_phase.
  replace (Z.of_nat i + 1 - 1)%Z with (Z.of_nat i) by lia.
  by rewrite (py_index_in_range _ _ _ Hi).
Qed.

(** A number past the last phase raises [IndexError]. *)
Lemma get_questions_by_phase_past_end (self : PPTDesignerSystem) (phase_id : Z) :
  (Z.of_nat (length (workflow_phases (config self))) < phase_id)%Z →
  get_questions_by_phase self phase_id = Raise IndexError.
Proof.
  intros Hi. unfold get_questions_by_phase.
  by rewrite py_index_past_end by lia.
Qed.

(** Phase number 0 is index [-1], which Python reads from the end of the
    list: the call yields the questions of the last phase. *)
Lemma get_questions_by_phase_zero (self : PPTDesignerSystem) :
  get_questions_by_phase self 0
  = from_option (λ phase, Ok (map make_question (phase_q_data phase)))
                (Raise IndexError)
                (last (workflow_phases (config self))).
Proof.
  unfold get_questions_by_phase. simpl. rewrite py_index_minus_one.
  by destruct (last _).
Qed.

(** C5. With two phases loaded, [get_questions_by_phase(0)] does not fail:
    it returns the questions of phase 2, and so does phase number [-1]
    return those of phase 1; only numbers past the end, or below minus the
    number of phases, raise [IndexError]. *)
Theorem get_questions_by_phase_zero_returns_last_phase :
  let self := init two_phase_config in
  get_questions_by_phase self 0 = get_questions_by_phase self 2
  ∧ get_questions_by_phase self 0
    = Ok [make_question (sample_question "q2.1.1" true 6)]
  ∧ get_questions_by_phase self (-1)
    = Ok [make_question (sample_question "q1.1.1" true 8)]
  ∧ get_questions_by_phase self 3 = Raise IndexError
  ∧ get_questions_by_phase self (-2) = Raise IndexError.
Proof. by vm_compute. Qed.

(** ** ProfileScorer *)

Section rationals.
Local Open Scope Qc_scope.


Lemma py_min_le_l (a b : Qc) : py_min a b ≤ a.
Proof.
  unfold py_min. case_decide; [|done]. by apply Qclt_le_weak.
Qed.






End rationals.

Lemma categories_NoDup : NoDup categories.
Proof. apply (bool_decide_unpack (NoDup categories)). by vm_compute. Qed.

Lemma categories_nonempty c : c ∈ categories → c ≠ "".
Proof.
  unfold categories. rewrite !elem_of_cons, elem_of_nil.
  intros Hc. destruct_or!; by subst.
Qed.

Lemma initial_scores_lookup c :
  c ∈ categories → initial_scores !! c = Some (Q2Qc 0).
Proof.
  unfold categories. rewrite !elem_of_cons, elem_of_nil.
  intros Hc. destruct_or!; subst; done.
Qed.

Lemma category_mapping_range (prefix category : string) :
  category_mapping !! prefix = Some category → category ∈ categories.
Proof.
  intros Hm. apply elem_of_list_to_map_2 in Hm.
  unfold categories. rewrite !elem_of_cons, elem_of_nil in Hm.
  destruct_or!; simplify_eq; set_solver.
Qed.

Lemma float_of_int_cases (n : Z) :
  ((Z.abs n < FLOAT_LIMIT)%Z ∧ float_of_int n = Ok (Qc_of_Z n))
  ∨ (¬ (Z.abs n < FLOAT_LIMIT)%Z ∧ float_of_int n = Raise OverflowError).
Proof. unfold float_of_int. case_bool_decide; auto. Qed.

Section scoring.
Context (self : PPTDesignerSystem).
Local Open Scope Qc_scope.

Lemma turn_share_zero c item :
  ¬ contributes self c item → turn_share self c item = 0.
Proof. intros Hno. unfold turn_share. by rewrite decide_False. Qed.

(** A turn of the loop either raises [OverflowError], on an item that
    overflows, or adds the item's share to every category. *)
Lemma score_step_cases scores item :
  match score_step self scores item with
  | Ok scores' =>
      ¬ overflows self item
      ∧ dom scores' = dom scores
      ∧ ∀ c s0, c ∈ categories → scores !! c = Some s0 →
                scores' !! c = Some (s0 + turn_share self c item)
  | Raise e => e = OverflowError ∧ overflows self item
  end.
Proof.
  destruct item as [qid r].
  assert (∀ c, c ∈ categories → ¬ contributes self c (qid, r) →
            ∀ s0, scores !! c = Some s0 →
                  scores !! c = Some (s0 + turn_share self c (qid, r))) as Hsame.
  { intros c _ Hno s0 ->. by rewrite turn_share_zero, Qcplus_0_r. }
  unfold score_step.
  destruct (category_mapping !! prefix_of qid) as [cat|] eqn:Hcat.
  2:{ split_and!; [|done|].
      - intros [[c (Hm & _)] _]; simpl in Hm. congruence.
      - intros c s0 Hc. apply Hsame; [done|]. intros (Hm & _); simpl in Hm.
        congruence. }
  case_bool_decide as Hne.
  2:{ split_and!; [|done|].
      - intros _.
        apply (categories_nonempty cat); [|done].
        by apply (category_mapping_range (prefix_of qid)).
      - intros c s0 Hc. apply Hsame; [done|]. intros _.
        apply (categories_nonempty cat); [|done].
        by apply (category_mapping_range (prefix_of qid)). }
  destruct (_find_question self qid) as [q|] eqn:Hq.
  2:{ split_and!; [|done|].
      - intros [[c (_ & [q' Hq'] & _)] _]; simpl in Hq'. congruence.
      - intros c s0 Hc. apply Hsame; [done|].
        intros (_ & [q' Hq'] & _); simpl in Hq'. congruence. }
  destruct (truthy (response r)) eqn:Htr.
  2:{ split_and!; [|done|].
      - intros [[c (_ & _ & Ht)] _]; simpl in Ht. congruence.
      - intros c s0 Hc. apply Hsame; [done|].
        intros (_ & _ & Ht); simpl in Ht. congruence. }
  assert (contributes self cat (qid, r)) as Hcontrib.
  { split_and!; simpl; eauto. }
  assert (weight_of self qid = qd_weight q) as Hw.
  { unfold weight_of. by rewrite Hq. }
  destruct (float_of_int_cases (qd_weight q)) as [[Hin ->]|[Hout ->]]; simpl.
  - split_and!.
    + intros [_ Hover]. simpl in Hover. by rewrite Hw in Hover.
    + apply dom_alter_L.
    + intros c s0 Hc Hs0. rewrite lookup_alter.
      destruct (decide (cat = c)) as [->|Hcc].
      * rewrite Hs0. simpl. unfold turn_share.
        rewrite decide_True by done.
        unfold tenth_of_weight. simpl. by rewrite Hw.
      * apply Hsame; [done| |done]. intros (Hm & _); simpl in Hm. congruence.
  - split; [done|]. split; [by exists cat|]. simpl. by rewrite Hw.
Qed.

Lemma sum_turn_shares c items :
  sum_Qc (map (turn_share self c) items)
  = sum_Qc (map (tenth_of_weight self) (filter (contributes self c) items)).
Proof.
  induction items as [|item items IH]; [done|].
  rewrite filter_cons. simpl. unfold turn_share at 1.
  case_decide; simpl; rewrite IH; [done|]. by rewrite Qcplus_0_l.
Qed.

(** The loop raises [OverflowError] exactly when an item overflows, and
    otherwise adds to every category the shares of all items. *)
Lemma score_loop_cases items scores :
  match score_loop self scores items with
  | Ok scores' =>
      Forall (λ item, ¬ overflows self item) items
      ∧ dom scores' = dom scores
      ∧ ∀ c s0, c ∈ categories → scores !! c = Some s0 →
                scores' !! c
                = Some (s0 + sum_Qc (map (turn_share self c) items))
  | Raise e => e = OverflowError ∧ Exists (overflows self) items
  end.
Proof.
  revert scores. induction items as [|item items IH]; intros scores; simpl.
  - split_and!; [constructor|done|]. intros c s0 _ ->. by rewrite Qcplus_0_r.
  - pose proof (score_step_cases scores item) as Hstep.
    destruct (score_step self scores item) as [scores1|e]; simpl.
    + destruct Hstep as (Hno & Hdom1 & Hval1).
      specialize (IH scores1).
      destruct (score_loop self scores1 items) as [scores'|e].
      * destruct IH as (Hall & Hdom & Hval). split_and!.
        -- by constructor.
        -- by rewrite Hdom.
        -- intros c s0 Hc Hs0.
           rewrite (Hval c _ Hc (Hval1 c s0 Hc Hs0)). by rewrite Qcplus_assoc.
      * destruct IH as [-> Hex]. split; [done|]. by right.
    + destruct Hstep as [-> Hover]. split; [done|]. by left.
Qed.

(** The running totals after the loop over the store. *)
Lemma running_totals :
  match score_loop self initial_scores (map_to_list (user_responses self)) with
  | Ok totals =>
      Forall (λ item, ¬ overflows self item) (map_to_list (user_responses self))
      ∧ dom totals = list_to_set categories
      ∧ ∀ c, c ∈ categories → totals !! c = Some (category_total self c)
  | Raise e =>
      e = OverflowError
      ∧ Exists (overflows self) (map_to_list (user_responses self))
  end.
Proof.
  pose proof (score_loop_cases (map_to_list (user_responses self)) initial_scores)
    as Hloop.
  destruct (score_loop self initial_scores _) as [totals|e]; [|done].
  destruct Hloop as (Hall & Hdom & Hval). split_and!; [done| |].
  - rewrite Hdom. unfold initial_scores. by rewrite dom_list_to_map_L.
  - intros c Hc. rewrite (Hval c (Q2Qc 0)) by auto using initial_scores_lookup.
    rewrite Qcplus_0_l. unfold category_total, contributing.
    by rewrite sum_turn_shares.
Qed.

Lemma float_weights_no_overflow item :
  float_weights (config self) → ¬ overflows self item.
Proof.
  intros Hw [_ Hover]. apply Hover. unfold weight_of.
  destruct (_find_question self item.1) as [q|] eqn:Hq; simpl; [|done].
  apply find_some in Hq as [Hin _]. apply list_elem_of_In in Hin.
  by apply (proj1 (Forall_forall _ _) Hw).
Qed.

Lemma running_totals_ok :
  float_weights (config self) →
  ∃ totals,
    score_loop self initial_scores (map_to_list (user_responses self)) = Ok totals
    ∧ dom totals = list_to_set categories
    ∧ ∀ c, c ∈ categories → totals !! c = Some (category_total self c).
Proof.
  intros Hw. pose proof running_totals as Hrun.
  destruct (score_loop self initial_scores _) as [totals|e].
  - destruct Hrun as (_ & Hdom & Hval). by exists totals.
  - destruct Hrun as [_ Hex]. apply Exists_exists in Hex as (item & _ & Hover).
    by destruct (float_weights_no_overflow item Hw).
Qed.
End scoring.

Lemma normalize_spec (max_scores : gmap string Qc) (cats : list string)
    (scores : gmap string Qc) :
  NoDup cats →
  (∀ c, c ∈ cats → is_Some (max_scores !! c) ∧ is_Some (scores !! c)) →
  ∃ scores',
    normalize max_scores cats scores = Ok scores'
    ∧ dom scores' = dom scores
    ∧ (∀ c, c ∉ cats → scores' !! c = scores !! c)
    ∧ (∀ c s mx, c ∈ cats → scores !! c = Some s → max_scores !! c = Some mx →
         scores' !! c = Some (py_min (s * 2) mx)).
Proof.
  intros Hnd. revert scores.
  induction Hnd as [|c0 cats Hc0 Hnd IH]; intros scores Hkeys; simpl.
  - exists scores. split_and!; try done. intros c s mx Hc. by apply elem_of_nil in Hc.
  - destruct (Hkeys c0) as [[mx0 Hmx0] [s0 Hs0]]; [by left|].
    rewrite Hmx0, Hs0.
    destruct (IH (<[c0 := py_min (s0 * 2) mx0]> scores)) as (scores' & Hn & Hd & Hout & Hin).
    { intros c Hc. destruct (Hkeys c) as [? ?]; [by right|]. split; [done|].
      rewrite lookup_insert. case_decide; eauto. }
    exists scores'. split_and!.
    + done.
    + rewrite Hd, dom_insert_L.
      apply subseteq_union_1_L, singleton_subseteq_l.
      by apply elem_of_dom_2 in Hs0.
    + intros c Hc. rewrite not_elem_of_cons in Hc. destruct Hc as [Hne Hc].
      rewrite Hout by done. by rewrite lookup_insert_ne.
    + intros c s mx Hc Hs Hmx. apply elem_of_cons in Hc as [->|Hc].
      * rewrite Hout by done. rewrite lookup_insert_eq. congruence.
      * apply Hin; [done| |done].
        rewrite lookup_insert_ne; [done|]. intros ->. done.
Qed.





Lemma sample_covers (mx : Z) (workflow : list PhaseData) :
  covers_categories
    {| workflow_phases := workflow; weight_distribution := uniform_weights mx |}.
Proof.
  intros c Hc. unfold categories in Hc.
  rewrite !elem_of_cons, elem_of_nil in Hc.
  destruct_or!; subst; by eexists.
Qed.

Lemma sample_float_weights (mx : Z) (qs : list QData) :
  Forall (λ q_data, (Z.abs (qd_weight q_data) < FLOAT_LIMIT)%Z) qs →
  float_weights
    {| workflow_phases := [sample_phase qs];
       weight_distribution := uniform_weights mx |}.
Proof.
  intros Hqs. unfold float_weights, all_q_data, phase_q_data. simpl.
  by rewrite !app_nil_r.
Qed.

(** Under a configuration that names a maximum for each category and
    whose weights convert to floats, the call returns, with the six
    categories as keys, the capped doubles of the running totals. *)
Lemma calculate_profile_score_formula (self : PPTDesignerSystem) :
  covers_categories (config self) →
  float_weights (config self) →
  ∃ scores,
    calculate_profile_score self = Ok scores
    ∧ dom scores = list_to_set categories
    ∧ ∀ c mx, c ∈ categories →
        weight_distribution (config self) !! c = Some mx →
        scores !! c = Some (py_min (category_total self c * 2) mx).
Proof.
  intros Hcov Hfw. unfold calculate_profile_score.
  destruct (running_totals_ok self Hfw) as (totals & -> & Hdomt & Hvalt).
  cbv [mbind result_bind].
  destruct (normalize_spec (weight_distribution (config self)) categories totals)
    as (scores & Hn & Hdom & _ & Hin).
  { apply categories_NoDup. }
  { intros c Hc. split; [by apply Hcov|]. rewrite Hvalt by done. eauto. }
  exists scores. split_and!; [done| |].
  - by rewrite Hdom.
  - intros c mx Hc Hmx. apply Hin; [done| |done]. by apply Hvalt.
Qed.

(** An answered question whose weight does not convert makes the call
    raise [OverflowError], whatever the configured maxima. *)
Lemma calculate_profile_score_overflow (self : PPTDesignerSystem) :
  Exists (overflows self) (map_to_list (user_responses self)) →
  calculate_profile_score self = Raise OverflowError.
Proof.
  intros Hex. unfold calculate_profile_score.
  pose proof (running_totals self) as Hrun.
  destruct (score_loop self initial_scores _) as [totals|e].
  - destruct Hrun as (Hall & _). apply Exists_exists in Hex as (item & Hin & Hover).
    by destruct (proj1 (Forall_forall _ _) Hall item Hin).
  - by destruct Hrun as [-> _].
Qed.


Lemma scenario_float_weights : float_weights scenario_config.
Proof. apply sample_float_weights, (bool_decide_unpack _). by vm_compute. Qed.


(** The scenario of the specification: [content_goals] scores
    [min(0.8 * 2, 20) = 1.6] and the category next to it 0. *)
Example scenario_scores :
  match calculate_profile_score scenario_system with
  | Ok scores =>
      scores !! "content_goals" = Some (Q2Qc (16 # 10))
      ∧ scores !! "audience_context" = Some (Q2Qc 0)
  | Raise _ => False
  end.
Proof. vm_compute. split; f_equal; by apply Qc_is_canon. Qed.



(** ** TemplateMatcher *)

Section matcher.
Context `{!UnicodeLower} (self : PPTDesignerSystem) (template : Template).
Local Open Scope Qc_scope.

Lemma plain_match_values qid tags points :
  plain_match self qid tags points = 0
  ∨ plain_match self qid tags points = points.
Proof. unfold plain_match. repeat case_match; auto. Qed.


Lemma style_match_absent :
  user_responses self !! STYLE_Q = None → style_match self template = Ok (Q2Qc 0).
Proof. unfold style_match. by intros ->. Qed.

Lemma style_match_text r s :
  user_responses self !! STYLE_Q = Some r →
  response r = VStr s →
  style_match self template
  = Ok (if bool_decide (str_lower s ∈ get_tags (t_style_tags template))
        then Qc_of_Z 25 else 0).
Proof. unfold style_match. by intros -> ->. Qed.

Lemma style_match_not_text r :
  user_responses self !! STYLE_Q = Some r →
  (∀ s, response r ≠ VStr s) →
  style_match self template = Raise AttributeError.
Proof.
  unfold style_match. intros -> Hr.
  destruct (response r); try done. by destruct (Hr s).
Qed.

End matcher.



(** C10 as stated fails through the profile scoring that the matcher runs
    first.  The two stores below hold the same responses for the four
    designated questions; the second also holds a response to [q1.2.1],
    whose weight [10^310] does not convert to a float.  The first store
    gives the template the score 75, the second raises [OverflowError]. *)
Lemma match_score_leaks_overflow :
  let self1 := styled_on_huge (VStr "minimal") in
  let self2 := overflowing_system (VStr "minimal") in
  let template := sample_template "a" ["minimal"] in
  config self1 = config self2
  ∧ Forall (λ q, response <$> user_responses self1 !! q
                 = response <$> user_responses self2 !! q) designated
  ∧ ∀ U : UnicodeLower,
      calculate_template_match_score self1 template = Ok (Qc_of_Z 75)
      ∧ calculate_template_match_score self2 template = Raise OverflowError.
Proof.
  intros self1 self2 template. split_and!.
  - done.
  - repeat constructor.
  - intros U. split; [|by vm_compute].
    vm_compute. f_equal. by apply Qc_is_canon.
Qed.

(** The sixteen sums of the four factors stay within 100, so the cap of
    [calculate_template_match_score] never binds. *)
Lemma factor_sum_bounds (style color functionality technical : Qc) :
  style = Q2Qc 0 ∨ style = Qc_of_Z 25 →
  color = Q2Qc 0 ∨ color = Qc_of_Z 20 →
  functionality = Q2Qc 0 ∨ functionality = Qc_of_Z 30 →
  technical = Q2Qc 0 ∨ technical = Qc_of_Z 25 →
  let total := (0 + style + color + functionality + technical)%Qc in
  py_min total (Qc_of_Z 100) = total ∧ (0 ≤ total ≤ Qc_of_Z 100)%Qc.
Proof.
  intros Hs Hc Hf Ht total. unfold total.
  destruct_or!; subst; (split; [by apply Qc_is_canon | by vm_compute]).
Qed.



(** The scenario of the specification: style, color and goal match, no
    version is stored, and the score is [25 + 20 + 30 + 0 = 75]. *)
Example scenario_match_score `{!UnicodeLower} :
  calculate_template_match_score (styled_system (VStr "minimal"))
                                 (sample_template "a" ["minimal"])
  = Ok (Qc_of_Z 75).
Proof. vm_compute. f_equal. by apply Qc_is_canon. Qed.


(** C6, as the code has it. The style factor is 25 exactly when a text
    answer is stored for [q2.1.1] and its lower-cased form ([str.lower]) is,
    character for character, one of the template's style tags; otherwise
    the factor is 0 (or the call raises).  The tags are not lower-cased:
    against tags that [str.lower] leaves as they are this is the match up
    to letter case. *)
Theorem style_match_triggered `{!UnicodeLower}
    (self : PPTDesignerSystem) (template : Template) :
  let tags := get_tags (t_style_tags template) in
  (style_match self template = Ok (Qc_of_Z 25)
   ↔ ∃ r s, user_responses self !! STYLE_Q = Some r
            ∧ response r = VStr s ∧ str_lower s ∈ tags)
  ∧ (∀ x, style_match self template = Ok x → x = Qc_of_Z 25 ∨ x = Q2Qc 0)
  ∧ (Forall (λ tag, str_lower tag = tag) tags →
     (style_match self template = Ok (Qc_of_Z 25)
      ↔ ∃ r s tag, user_responses self !! STYLE_Q = Some r
                   ∧ response r = VStr s ∧ tag ∈ tags ∧ str_lower s = str_lower tag)).
Proof.
  intros tags.
  assert (style_match self template = Ok (Qc_of_Z 25)
          ↔ ∃ r s, user_responses self !! STYLE_Q = Some r
                   ∧ response r = VStr s ∧ str_lower s ∈ tags) as Hiff.
  { split.
    - intros Hm. destruct (user_responses self !! STYLE_Q) as [r|] eqn:Hr.
      + destruct (response r) as [| | |s|] eqn:Hresp;
          try (by rewrite (style_match_not_text self template r Hr) in Hm
                by (by rewrite Hresp)).
        rewrite (style_match_text self template r s Hr Hresp) in Hm.
        case_bool_decide; [by eauto|]. by injection Hm.
      + rewrite style_match_absent in Hm by done. by injection Hm.
    - intros (r & s & Hr & Hresp & Hin).
      rewrite (style_match_text self template r s Hr Hresp).
      by rewrite bool_decide_eq_true_2. }
  split_and!; [exact Hiff| |].
  - intros x Hx. destruct (user_responses self !! STYLE_Q) as [r|] eqn:Hr.
    + destruct (response r) as [| | |s|] eqn:Hresp;
        try (by rewrite (style_match_not_text self template r Hr) in Hx
              by (by rewrite Hresp)).
      rewrite (style_match_text self template r s Hr Hresp) in Hx.
      case_bool_decide; simplify_eq; auto.
    + rewrite style_match_absent in Hx by done. simplify_eq; auto.
  - intros Hlow. rewrite Hiff. split.
    + intros (r & s & Hr & Hresp & Hin). exists r, s, (str_lower s).
      split_and!; try done.
      by rewrite (proj1 (Forall_forall _ _) Hlow (str_lower s) Hin).
    + intros (r & s & tag & Hr & Hresp & Hin & Heq). exists r, s.
      split_and!; try done.
      rewrite Heq. by rewrite (proj1 (Forall_forall _ _) Hlow tag Hin).
Qed.

(** C6 as stated fails when a tag has a capital letter: the answer
    ["minimal"] differs from the tag ["Minimal"] in letter case only, and
    the answer ["Minimal"] not at all, yet neither triggers the factor; the
    score is [20 + 30] in both cases. *)
Lemma style_match_keeps_tag_case :
  let template := sample_template "a" ["Minimal"] in
  covers_categories (config (styled_system (VStr "minimal")))
  ∧ ∀ U : UnicodeLower,
      str_lower "minimal" = str_lower "Minimal"
      ∧ style_match (styled_system (VStr "minimal")) template = Ok (Q2Qc 0)
      ∧ style_match (styled_system (VStr "Minimal")) template = Ok (Q2Qc 0)
      ∧ calculate_template_match_score (styled_system (VStr "minimal")) template
        = Ok (Qc_of_Z 50)
      ∧ calculate_template_match_score (styled_system (VStr "Minimal")) template
        = Ok (Qc_of_Z 50).
Proof.
  intros template. split; [apply sample_covers|]. intros U.
  split_and!; try (by vm_compute);
    vm_compute; f_equal; by apply Qc_is_canon.
Qed.

(** ** PlanGenerator *)


Lemma timeline_key_of_unhashable (l : list string) :
  timeline_key_of (VList l) = Raise TypeError.
Proof. done. Qed.




(** ** RecommendationRanker *)

(** The consumers read the configuration and the store, nothing else of
    the system object. *)
Lemma score_loop_ext (self1 self2 : PPTDesignerSystem)
    (scores : gmap string Qc) (items : list (string * UserResponse)) :
  config self1 = config self2 →
  score_loop self1 scores items = score_loop self2 scores items.
Proof.
  intros Hcfg. revert scores.
  induction items as [|item items IH]; intros scores; [done|]. simpl.
  assert (score_step self1 scores item = score_step self2 scores item) as ->.
  { destruct self1, self2; simpl in *. subst. reflexivity. }
  destruct (score_step self2 scores item); simpl; [apply IH|done].
Qed.

Lemma calculate_profile_score_ext (self1 self2 : PPTDesignerSystem) :
  config self1 = config self2 →
  user_responses self1 = user_responses self2 →
  calculate_profile_score self1 = calculate_profile_score self2.
Proof.
  intros Hcfg Hstore. unfold calculate_profile_score.
  by rewrite Hcfg, Hstore, (score_loop_ext self1 self2).
Qed.

Lemma calculate_template_match_score_ext `{!UnicodeLower}
    (self1 self2 : PPTDesignerSystem) (template : Template) :
  config self1 = config self2 →
  user_responses self1 = user_responses self2 →
  calculate_template_match_score self1 template
  = calculate_template_match_score self2 template.
Proof.
  intros Hcfg Hstore. unfold calculate_template_match_score.
  rewrite (calculate_profile_score_ext self1 self2) by done.
  unfold style_match, color_match, functionality_match,
    technical_compatibility, plain_match.
  by rewrite Hstore.
Qed.

Lemma build_recommendations_ext `{!UnicodeLower} (self1 self2 : PPTDesignerSystem)
    (catalog : list Template) :
  config self1 = config self2 →
  user_responses self1 = user_responses self2 →
  build_recommendations self1 catalog = build_recommendations self2 catalog.
Proof.
  intros Hc Hr. induction catalog as [|template catalog IH]; [done|]. simpl.
  by rewrite (calculate_template_match_score_ext self1 self2), IH.
Qed.

Lemma generate_implementation_plan_ext (self1 self2 : PPTDesignerSystem) :
  config self1 = config self2 →
  user_responses self1 = user_responses self2 →
  generate_implementation_plan self1 = generate_implementation_plan self2.
Proof.
  destruct self1, self2; simpl. intros -> ->. reflexivity.
Qed.


Section sorting.
Local Open Scope Qc_scope.

Lemma insert_desc_perm x l : insert_desc x l ≡ₚ x :: l.
Proof.
induction l as [|y l IH]; simpl; [done|].
case_decide; [|done]. rewrite IH. apply Permutation_swap.
Qed.

Lemma sort_by_score_desc_perm l : sort_by_score_desc l ≡ₚ l.
Proof.
induction l as [|x l IH]; simpl; [done|].
by rewrite insert_desc_perm, IH.
Qed.

Lemma insert_desc_sorted x l :
StronglySorted by_score_desc l → StronglySorted by_score_desc (insert_desc x l).
Proof.
induction 1 as [|y l Hs IH Hy]; simpl.
- repeat constructor.
- case_decide as Hlt.
  + constructor; [done|]. rewrite insert_desc_perm.
    constructor; [|done]. by apply Qclt_le_weak.
  + apply Qcnot_lt_le in Hlt.
    constructor; [by constructor|]. constructor; [done|].
    eapply Forall_impl; [exact Hy|]. unfold by_score_desc. simpl.
    intros z Hz. by apply Qcle_trans with (match_score y).
Qed.

Lemma sort_by_score_desc_sorted l :
StronglySorted by_score_desc (sort_by_score_desc l).
Proof.
induction l as [|x l IH]; simpl; [constructor|]. by apply insert_desc_sorted.
Qed.



End sorting.




(** On the sample catalog: [b] and [d] score 75 and stay in catalog order,
    then [a] and [c] with 50, again in catalog order. *)
Example sample_ranking `{!UnicodeLower} :
  (λ out, (map template_name out.2, map template_name (recommendations out.1)))
    <$> generate_recommendations (styled_system (VStr "minimal")) sample_catalog
  = Ok (["b"; "d"; "a"; "c"], ["b"; "d"; "a"; "c"]).
Proof. by vm_compute. Qed.


(** ** Statelessness *)

(** C7, as the code has it. The profile scores, the match score of a
    template, the plan and the list returned by [generate_recommendations]
    are the same for two systems with the same configuration and the same
    store.  [generate_recommendations] keeps the whole ranked list in the
    [recommendations] field and changes no other field; the
    recommendations of [export_user_profile] are the first five entries of
    that field, whatever the store holds now. *)
Theorem consumers_read_config_and_store `{!UnicodeLower}
    (self1 self2 : PPTDesignerSystem) :
  config self1 = config self2 →
  user_responses self1 = user_responses self2 →
  calculate_profile_score self1 = calculate_profile_score self2
  ∧ (∀ template, calculate_template_match_score self1 template
                 = calculate_template_match_score self2 template)
  ∧ generate_implementation_plan self1 = generate_implementation_plan self2
  ∧ (∀ catalog, snd <$> generate_recommendations self1 catalog
                = snd <$> generate_recommendations self2 catalog)
  ∧ (∀ catalog self' out,
       generate_recommendations self1 catalog = Ok (self', out) →
       self' = set_recommendations self1 (recommendations self')
       ∧ out = take 10 (recommendations self'))
  ∧ (∀ now_id now_created profile,
       export_user_profile self1 now_id now_created = Ok profile →
       profile_recommendations profile
       = map export_recommendation (take 5 (recommendations self1))).
Proof.
  intros Hcfg Hstore. split_and!.
  - by apply calculate_profile_score_ext.
  - intros template. by apply calculate_template_match_score_ext.
  - by apply generate_implementation_plan_ext.
  - intros catalog. unfold generate_recommendations.
    rewrite (build_recommendations_ext self1 self2) by done.
    by destruct (build_recommendations self2 catalog).
  - intros catalog self' out. unfold generate_recommendations.
    destruct (build_recommendations self1 catalog); simpl; [|done].
    by intros [= <- <-].
  - intros now_id now_created profile. unfold export_user_profile.
    destruct (calculate_profile_score self1); simpl; [|done].
    by intros [= <-].
Qed.

Lemma consumers_read_config_and_store_witness :
  let self1 := styled_system (VStr "minimal") in
  let self2 := set_recommendations self1 [make_recommendation (sample_template "a" []) 0] in
  self1 ≠ self2
  ∧ ∀ U : UnicodeLower,
      calculate_profile_score self1 = calculate_profile_score self2
      ∧ generate_implementation_plan self1 = generate_implementation_plan self2
      ∧ snd <$> generate_recommendations self1 sample_catalog
        = snd <$> generate_recommendations self2 sample_catalog.
Proof.
  intros self1 self2. split.
  - intros Heq. apply (f_equal (λ s, length (recommendations s))) in Heq.
    by vm_compute in Heq.
  - intros U.
    destruct (consumers_read_config_and_store self1 self2 eq_refl eq_refl)
      as (Hscore & _ & Hplan & Hrecs & _).
    split_and!; [done|done|apply Hrecs].
Defined.

(** C7 as stated fails for [export_user_profile]: the system before and
    the system after a call of [generate_recommendations] have the same
    configuration and the same store, yet they export different
    recommendations; and after the style answer is replaced the export
    still lists the old ranking, not the one the new store gives. *)
Lemma export_user_profile_reads_cache :
  let before := styled_system (VStr "minimal") in
  style_is_text before
  ∧ ∀ U : UnicodeLower,
  match generate_recommendations before sample_catalog with
  | Ok (after, _) =>
      config after = config before
      ∧ user_responses after = user_responses before
      ∧ (λ p, map ex_name (profile_recommendations p))
          <$> export_user_profile before 0%Z 0%Z = Ok []
      ∧ (λ p, map ex_name (profile_recommendations p))
          <$> export_user_profile after 0%Z 0%Z = Ok ["b"; "d"; "a"; "c"]
      ∧ (λ p, map ex_name (profile_recommendations p))
          <$> export_user_profile (answered after STYLE_Q (VStr "modern")) 0%Z 0%Z
        = Ok ["b"; "d"; "a"; "c"]
      ∧ (λ out, map template_name out.2)
          <$> generate_recommendations
                (answered after STYLE_Q (VStr "modern")) sample_catalog
        = Ok ["c"; "d"; "a"; "b"]
  | Raise _ => False
  end.
Proof.
  intros before. split.
  - intros r Hr. vm_compute in Hr. injection Hr as <-. by eexists.
  - intros U. by vm_compute.
Qed.

(** * Further properties of the code *)

(** ** QuestionCatalog *)

Lemma length_flat_map_sum {A B} (f : A → list B) (l : list A) :
  length (flat_map f l) = sum_list (map (λ x, length (f x)) l).
Proof.
  induction l as [|x l IH]; [done|]. simpl. by rewrite length_app, IH.
Qed.

(** X1. [get_all_questions] returns as many questions as the sections of
    all phases list under [strategic_questions]. *)
Theorem get_all_questions_length (self : PPTDesignerSystem) :
  length (get_all_questions self)
  = sum_list
      (map (λ phase,
              sum_list (map (λ section, length (strategic_questions section))
                            (sections phase)))
           (workflow_phases (config self))).
Proof.
  unfold get_all_questions, all_q_data. rewrite length_map, length_flat_map_sum.
  f_equal. apply map_ext. intros phase. apply length_flat_map_sum.
Qed.

(** X2. For a phase number of at least 1, [get_questions_by_phase] returns
    the questions of the phase at that 1-based position, in document
    order, and raises [IndexError] when there is no such phase. *)
Theorem get_questions_by_phase_positive (self : PPTDesignerSystem) (phase_id : Z) :
  (1 ≤ phase_id)%Z →
  get_questions_by_phase self phase_id
  = match workflow_phases (config self) !! Z.to_nat (phase_id - 1) with
    | Some phase => Ok (map make_question (phase_q_data phase))
    | None => Raise IndexError
    end.
Proof.
  intros Hpos.
  destruct (workflow_phases (config self) !! Z.to_nat (phase_id - 1))
    as [phase|] eqn:Hphase.
  - rewrite <-(get_questions_by_phase_loaded self _ phase Hphase).
    f_equal. lia.
  - apply get_questions_by_phase_past_end.
    apply lookup_ge_None in Hphase. lia.
Qed.

Lemma get_questions_by_phase_positive_witness :
  (1 ≤ 2)%Z
  ∧ get_questions_by_phase (init two_phase_config) 2
    = Ok [make_question (sample_question "q2.1.1" true 6)].
Proof.
  split; [lia|].
  by rewrite (get_questions_by_phase_positive (init two_phase_config) 2) by lia.
Defined.

(** X3. The lists that [get_questions_by_phase] returns for the phase
    numbers 1, 2, ..., taken in that order, make up the list of
    [get_all_questions]. *)
Theorem get_questions_by_phase_partition (self : PPTDesignerSystem) :
  ∃ parts,
    Forall2 (λ i part, get_questions_by_phase self (Z.of_nat i + 1) = Ok part)
            (seq 0 (length (workflow_phases (config self)))) parts
    ∧ concat parts = get_all_questions self.
Proof.
  exists (map (λ phase, map make_question (phase_q_data phase))
              (workflow_phases (config self))).
  split.
  - apply Forall2_same_length_lookup. split; [by rewrite length_seq, length_map|].
    intros k i part Hi Hpart.
    apply lookup_seq in Hi as [-> Hk]. simpl in Hpart.
    rewrite list_lookup_fmap in Hpart.
    destruct (workflow_phases (config self) !! k) as [phase|] eqn:Hphase;
      simplify_eq/=.
    by apply get_questions_by_phase_loaded.
  - unfold get_all_questions, all_q_data.
    induction (workflow_phases (config self)) as [|phase phases IH]; [done|].
    simpl. by rewrite map_app, IH.
Qed.

Lemma py_index_from_end {A} (l : list A) (k : nat) (a : A) :
  (k < length l)%nat →
  l !! (length l - 1 - k)%nat = Some a →
  py_index l (- Z.of_nat k - 1) = Ok a.
Proof.
  intros Hk Ha. unfold py_index; cbv zeta.
  repeat case_bool_decide; try lia.
  replace (Z.to_nat (- Z.of_nat k - 1 + Z.of_nat (length l)))
    with (length l - 1 - k)%nat by lia.
  by rewrite Ha.
Qed.

Lemma py_index_below {A} (l : list A) (i : Z) :
  (i < - Z.of_nat (length l))%Z → py_index l i = Raise IndexError.
Proof.
  intros Hi. unfold py_index; cbv zeta.
  repeat case_bool_decide; try lia; done.
Qed.

(** X4. A phase number [0], [-1], ... down to [1 - n], with [n] phases
    loaded, does not fail: [get_questions_by_phase(-k)] returns the
    questions of the phase that is [k] places before the last one.  Below
    [1 - n] the call raises [IndexError]. *)
Theorem get_questions_by_phase_wraps (self : PPTDesignerSystem) (k : nat)
    (phase : PhaseData) :
  let phases := workflow_phases (config self) in
  (k < length phases)%nat →
  phases !! (length phases - 1 - k)%nat = Some phase →
  get_questions_by_phase self (- Z.of_nat k)
  = Ok (map make_question (phase_q_data phase))
  ∧ (∀ phase_id, (phase_id ≤ - Z.of_nat (length phases))%Z →
       get_questions_by_phase self phase_id = Raise IndexError).
Proof.
  intros phases Hk Hphase. subst phases. split.
  - unfold get_questions_by_phase.
    by rewrite (py_index_from_end _ k phase Hk Hphase).
  - intros phase_id Hlow. unfold get_questions_by_phase.
    by rewrite py_index_below by lia.
Qed.

Lemma get_questions_by_phase_wraps_witness :
  get_questions_by_phase (init two_phase_config) (-1)
  = Ok [make_question (sample_question "q1.1.1" true 8)]
  ∧ get_questions_by_phase (init two_phase_config) (-2) = Raise IndexError.
Proof.
  destruct (get_questions_by_phase_wraps (init two_phase_config) 1
              (sample_phase [sample_question "q1.1.1" true 8]))
    as [Hwrap Hlow]; [simpl; lia|done|].
  split; [exact Hwrap|]. apply Hlow. simpl. lia.
Defined.

(** X5. [_find_question] returns the first question of the catalog, in
    document order, that carries the id; it returns [None] exactly when no
    question carries it. *)
Theorem _find_question_first (self : PPTDesignerSystem) (question_id : string) :
  match _find_question self question_id with
  | Some q_data =>
      qd_question_id q_data = question_id
      ∧ ∃ before after,
          all_q_data (config self) = (before ++ q_data :: after)%list
          ∧ Forall (λ q, qd_question_id q ≠ question_id) before
  | None =>
      Forall (λ q, qd_question_id q ≠ question_id) (all_q_data (config self))
  end.
Proof.
  unfold _find_question.
  induction (all_q_data (config self)) as [|q qs IH]; simpl; [constructor|].
  case_bool_decide as Hq.
  - split; [done|]. exists [], qs. split; [done|constructor].
  - destruct (find _ qs) as [q'|].
    + destruct IH as (Hid & before & after & -> & Hbefore).
      split; [done|]. exists (q :: before), after. split; [done|].
      by constructor.
    + by constructor.
Qed.

(** ** ResponseStore and progress *)

(** X6. Submitting an id that has no response grows the store by one
    entry, submitting an id again leaves its size as it is, and two
    submissions for different ids give the same store in either order. *)
Theorem submit_response_store_shape (self : PPTDesignerSystem)
    (X Y : string) (v w : value) (d e : option string) (t u : datetime) :
  size (user_responses (submit_response self X v d t).1)
  = (if decide (is_Some (user_responses self !! X))
     then size (user_responses self)
     else S (size (user_responses self)))
  ∧ (X ≠ Y →
     (submit_response (submit_response self X v d t).1 Y w e u).1
     = (submit_response (submit_response self Y w e u).1 X v d t).1).
Proof.
  split.
  - simpl. case_decide as HX.
    + destruct HX as [r HX]. by apply map_size_insert_Some.
    + apply map_size_insert_None. by apply eq_None_not_Some.
  - intros Hne. unfold submit_response; simpl. f_equal.
    by apply insert_insert_ne.
Qed.

Section percentages.
Local Open Scope Qc_scope.

Lemma percent_mono (a b t : Z) :
  (0 < t)%Z → (a ≤ b)%Z →
  Qc_of_Z a / Qc_of_Z t * Qc_of_Z 100 ≤ Qc_of_Z b / Qc_of_Z t * Qc_of_Z 100.
Proof.
  intros Ht Hab. apply Qcmult_le_compat_r; [|by vm_compute].
  unfold Qcdiv. apply Qcmult_le_compat_r; [by apply (proj1 (Z2Qc_inj_le a b))|].
  apply Qclt_le_weak, Qcinv_pos. rewrite <-Z2Qc_inj_0.
  by apply (proj1 (Z2Qc_inj_lt 0 t)).
Qed.

Lemma percent_strict (a b t : Z) :
  (0 < t)%Z → (a < b)%Z →
  Qc_of_Z a / Qc_of_Z t * Qc_of_Z 100 < Qc_of_Z b / Qc_of_Z t * Qc_of_Z 100.
Proof.
  intros Ht Hab. apply Qcmult_lt_compat_r; [by vm_compute|].
  unfold Qcdiv. apply Qcmult_lt_compat_r; [|by apply (proj1 (Z2Qc_inj_lt a b))].
  apply Qcinv_pos. rewrite <-Z2Qc_inj_0. by apply (proj1 (Z2Qc_inj_lt 0 t)).
Qed.

Lemma percent_full (t : Z) :
  (0 < t)%Z → Qc_of_Z t / Qc_of_Z t * Qc_of_Z 100 = Qc_of_Z 100.
Proof.
  intros Ht. unfold Qcdiv. rewrite Qcmult_inv_r; [by rewrite Qcmult_1_l|].
  rewrite <-Z2Qc_inj_0. intros Heq%Z2Qc_inj. lia.
Qed.

Lemma percent_none (t : Z) : Qc_of_Z 0 / Qc_of_Z t * Qc_of_Z 100 = 0.
Proof. unfold Qcdiv. by rewrite Z2Qc_inj_0, !Qcmult_0_l. Qed.

End percentages.

Lemma length_filter_impl {A} (P Q : A → Prop)
    `{∀ x, Decision (P x)} `{∀ x, Decision (Q x)} (l : list A) :
  Forall (λ x, P x → Q x) l → (length (filter P l) ≤ length (filter Q l))%nat.
Proof.
  induction 1 as [|x l HPQ _ IH]; [done|].
  rewrite !filter_cons. repeat case_decide; simpl; try lia. tauto.
Qed.

Lemma length_filter_and_eq {A} (P Q : A → Prop)
    `{∀ x, Decision (P x)} `{∀ x, Decision (Q x)} (l : list A) :
  length (filter (λ x, P x ∧ Q x) l) = length (filter P l)
  ↔ Forall (λ x, P x → Q x) l.
Proof.
  induction l as [|x l IH].
  - split; [constructor|done].
  - assert (length (filter (λ x, P x ∧ Q x) l) ≤ length (filter P l))%nat as Hle.
    { apply length_filter_impl, Forall_forall. tauto. }
    rewrite Forall_cons, <-IH, !filter_cons.
    repeat case_decide; simpl; split; intros; destruct_and?;
      try split; try tauto; try lia.
Qed.

Lemma answered_le_total (cfg : Config) (store : gmap string UserResponse) :
  (answered_required cfg store ≤ total_required cfg)%nat.
Proof.
  unfold answered_required, total_required.
  apply length_filter_impl, Forall_forall. tauto.
Qed.

Lemma answered_required_mono (cfg : Config) (store1 store2 : gmap string UserResponse) :
  (∀ k, is_Some (store1 !! k) → is_Some (store2 !! k)) →
  (answered_required cfg store1 ≤ answered_required cfg store2)%nat.
Proof.
  intros Hsub. unfold answered_required.
  apply length_filter_impl, Forall_forall. intros q _ [? ?]. auto.
Qed.

Lemma all_answered_iff (cfg : Config) (store : gmap string UserResponse) :
  answered_required cfg store = total_required cfg
  ↔ Forall (λ q_data, qd_required q_data = true →
                      is_Some (store !! qd_question_id q_data))
           (all_q_data cfg).
Proof.
  unfold answered_required, total_required.
  rewrite <-(length_filter_and_eq (λ q, qd_required q = true)).
  split; intros <-; f_equal; by apply list_filter_iff.
Qed.

(** X7. The progress is a percentage: it lies between 0 and 100 for every
    catalog and every store. *)
Theorem get_progress_percentage_range (self : PPTDesignerSystem) :
  (0 ≤ get_progress_percentage self ≤ Qc_of_Z 100)%Qc.
Proof.
  rewrite get_progress_percentage_spec.
  pose proof (answered_le_total (config self) (user_responses self)) as Hle.
  case_decide as Htot; [by vm_compute|]. split.
  - rewrite <-(percent_none (Z.of_nat (total_required (config self)))).
    apply percent_mono; lia.
  - rewrite <-(percent_full (Z.of_nat (total_required (config self)))) at 2 by lia.
    apply percent_mono; lia.
Qed.

(** X8. A submission never lowers the progress; it leaves the progress as
    it is when the id already has a response. *)
Theorem get_progress_percentage_submit (self : PPTDesignerSystem)
    (X : string) (v : value) (d : option string) (t : datetime) :
  let self' := (submit_response self X v d t).1 in
  (get_progress_percentage self ≤ get_progress_percentage self')%Qc
  ∧ (is_Some (user_responses self !! X) →
     get_progress_percentage self' = get_progress_percentage self).
Proof.
  intros self'. rewrite !get_progress_percentage_spec.
  change (config self') with (config self).
  split.
  - case_decide; [done|]. apply percent_mono; [lia|].
    apply inj_le, answered_required_mono. intros k Hk. subst self'; simpl.
    rewrite lookup_insert. by case_decide.
  - intros HX. case_decide; [done|]. do 3 f_equal. apply (f_equal Z.of_nat).
    apply Nat.le_antisymm; apply answered_required_mono; intros k Hk;
      subst self'; simpl in *; rewrite lookup_insert in *;
      case_decide; subst; eauto.
Qed.

(** X9. The progress is 100 exactly when every required question of the
    catalog has a stored response. *)
Theorem get_progress_percentage_complete (self : PPTDesignerSystem) :
  get_progress_percentage self = Qc_of_Z 100
  ↔ Forall (λ q_data, qd_required q_data = true →
                      is_Some (user_responses self !! qd_question_id q_data))
           (all_q_data (config self)).
Proof.
  rewrite get_progress_percentage_spec, <-all_answered_iff.
  pose proof (answered_le_total (config self) (user_responses self)) as Hle.
  case_decide as Htot.
  - split; [lia|done].
  - split.
    + intros Hfull. apply Nat.le_antisymm; [done|]. apply Nat.nlt_ge. intros Hlt.
      eapply Qclt_not_eq; [|exact Hfull].
      rewrite <-(percent_full (Z.of_nat (total_required (config self))))
        at 2 by lia.
      apply percent_strict; lia.
    + intros ->. apply percent_full. lia.
Qed.

(** ** ProfileScorer: the effect of a submission on the scores *)

Section totals.
Context (self : PPTDesignerSystem).
Local Open Scope Qc_scope.

Lemma sum_Qc_perm (l1 l2 : list Qc) : l1 ≡ₚ l2 → sum_Qc l1 = sum_Qc l2.
Proof.
  induction 1 as [|x l1 l2 _ IH|x y l|l1 l2 l3 _ IH1 _ IH2]; simpl.
  - done.
  - by rewrite IH.
  - by rewrite !Qcplus_assoc, (Qcplus_comm x y).
  - by rewrite IH1.
Qed.

(** The total of a category over any list of items. *)
Lemma list_total_perm c (items1 items2 : list (string * UserResponse)) :
  items1 ≡ₚ items2 →
  sum_Qc (map (turn_share self c) items1) = sum_Qc (map (turn_share self c) items2).
Proof. intros Hp. apply sum_Qc_perm. by rewrite Hp. Qed.

Lemma category_total_shares c :
  category_total self c
  = sum_Qc (map (turn_share self c) (map_to_list (user_responses self))).
Proof. unfold category_total, contributing. by rewrite sum_turn_shares. Qed.

Lemma category_total_insert c X r store :
  store !! X = None →
  sum_Qc (map (turn_share self c) (map_to_list (<[X:=r]> store)))
  = turn_share self c (X, r)
    + sum_Qc (map (turn_share self c) (map_to_list store)).
Proof.
  intros Hfresh.
  by rewrite (list_total_perm c _ _ (map_to_list_insert store X r Hfresh)).
Qed.

End totals.

Lemma turn_share_config (self1 self2 : PPTDesignerSystem) c item :
  config self1 = config self2 →
  turn_share self1 c item = turn_share self2 c item.
Proof.
  destruct self1, self2; simpl. intros ->. reflexivity.
Qed.

(** What the entry stored for an id adds to a category: nothing when the
    id has no entry. *)
Lemma category_total_submit (self : PPTDesignerSystem) (X : string) (v : value)
    (d : option string) (t : datetime) (c : string) :
  let r := {| ur_question_id := X; response := v;
              additional_details := d; timestamp := t |} in
  (category_total (submit_response self X v d t).1 c
   + from_option (λ r0, turn_share self c (X, r0)) 0 (user_responses self !! X)
   = category_total self c + turn_share self c (X, r))%Qc.
Proof.
  intros r. rewrite !category_total_shares.
  set (self' := (submit_response self X v d t).1).
  set (store := user_responses self).
  set (rest := sum_Qc (map (turn_share self c) (map_to_list (delete X store)))).
  assert (sum_Qc (map (turn_share self' c) (map_to_list (user_responses self')))
          = turn_share self c (X, r) + rest)%Qc as ->.
  { rewrite (map_ext (turn_share self' c) (turn_share self c))
      by (intros item; by apply turn_share_config).
    change (user_responses self') with (<[X:=r]> store).
    rewrite <-(insert_delete_eq store).
    by rewrite category_total_insert by apply lookup_delete_eq. }
  destruct (store !! X) as [r0|] eqn:HX; simpl.
  - assert (sum_Qc (map (turn_share self c) (map_to_list store))
            = turn_share self c (X, r0) + rest)%Qc as ->.
    { rewrite <-(insert_delete_id store X r0 HX) at 1.
      by rewrite category_total_insert by apply lookup_delete_eq. }
    ring.
  - unfold rest. rewrite (delete_id _ _ HX), Qcplus_0_r. apply Qcplus_comm.
Qed.

Lemma running_totals_ext (self1 self2 : PPTDesignerSystem) :
  (∀ c, c ∈ categories → category_total self1 c = category_total self2 c) →
  (Exists (overflows self1) (map_to_list (user_responses self1))
   ↔ Exists (overflows self2) (map_to_list (user_responses self2))) →
  score_loop self1 initial_scores (map_to_list (user_responses self1))
  = score_loop self2 initial_scores (map_to_list (user_responses self2)).
Proof.
  intros Htot Hover.
  assert (∀ self, Forall (λ item, ¬ overflows self item)
                         (map_to_list (user_responses self)) →
                  ¬ Exists (overflows self) (map_to_list (user_responses self)))
    as Hclash.
  { intros self Hall (item & Hin & Hitem)%Exists_exists.
    by apply (proj1 (Forall_forall _ _) Hall item Hin). }
  pose proof (running_totals self1) as H1.
  pose proof (running_totals self2) as H2.
  destruct (score_loop self1 initial_scores _) as [totals1|e1],
           (score_loop self2 initial_scores _) as [totals2|e2].
  - destruct H1 as (_ & Hdom1 & Hval1), H2 as (_ & Hdom2 & Hval2).
    f_equal. apply map_eq. intros k.
    destruct (decide (k ∈ categories)) as [Hk|Hk].
    + rewrite Hval1, Hval2 by done. by rewrite Htot.
    + assert (k ∉ (list_to_set categories : gset string)) as Hnot
        by by rewrite elem_of_list_to_set.
      rewrite (proj1 (not_elem_of_dom totals1 k)) by by rewrite Hdom1.
      by rewrite (proj1 (not_elem_of_dom totals2 k)) by by rewrite Hdom2.
  - destruct H1 as (Hall & _), H2 as (_ & Hex).
    destruct (Hclash self1 Hall). by apply Hover.
  - destruct H1 as (_ & Hex), H2 as (Hall & _).
    destruct (Hclash self2 Hall). by apply Hover.
  - destruct H1 as (-> & _), H2 as (-> & _). done.
Qed.

Lemma calculate_profile_score_totals (self1 self2 : PPTDesignerSystem) :
  config self1 = config self2 →
  (∀ c, c ∈ categories → category_total self1 c = category_total self2 c) →
  (Exists (overflows self1) (map_to_list (user_responses self1))
   ↔ Exists (overflows self2) (map_to_list (user_responses self2))) →
  calculate_profile_score self1 = calculate_profile_score self2.
Proof.
  intros Hcfg Htot Hover. unfold calculate_profile_score.
  by rewrite Hcfg, (running_totals_ext self1 self2).
Qed.

(** A submission whose item does not overflow, in place of an entry that
    did not either, leaves it as it was whether some item overflows. *)
Lemma overflow_after_submit (self : PPTDesignerSystem) (X : string) (v : value)
    (d : option string) (t : datetime) :
  let r := {| ur_question_id := X; response := v;
              additional_details := d; timestamp := t |} in
  let self' := (submit_response self X v d t).1 in
  ¬ overflows self (X, r) →
  (∀ r0, user_responses self !! X = Some r0 → ¬ overflows self (X, r0)) →
  Exists (overflows self') (map_to_list (user_responses self'))
  ↔ Exists (overflows self) (map_to_list (user_responses self)).
Proof.
  intros r self' Hnew Hold.
  change (overflows self') with (overflows self).
  change (user_responses self') with (<[X:=r]> (user_responses self)).
  rewrite !Exists_exists. split.
  - intros ([k r1] & Hin & Hover). apply elem_of_map_to_list in Hin.
    rewrite lookup_insert in Hin. case_decide; simplify_eq; [done|].
    exists (k, r1). split; [|done]. by apply elem_of_map_to_list.
  - intros ([k r1] & Hin & Hover). apply elem_of_map_to_list in Hin.
    destruct (decide (k = X)) as [->|Hne]; [by destruct (Hold r1 Hin)|].
    exists (k, r1). split; [|done].
    apply elem_of_map_to_list. by rewrite lookup_insert_ne.
Qed.

Lemma turn_share_nothing (self : PPTDesignerSystem) (c : string)
    (X : string) (r : UserResponse) :
  category_mapping !! prefix_of X = None ∨ _find_question self X = None
  ∨ truthy (response r) = false →
  turn_share self c (X, r) = Q2Qc 0.
Proof.
  intros Hno. unfold turn_share. case_decide as Hc; [|done].
  destruct Hc as (Hm & [q Hq] & Htr); simpl in *.
  destruct Hno as [Hno|[Hno|Hno]]; congruence.
Qed.

(** X10. A response that cannot contribute is stored but leaves the
    profile scores as they were: one whose id has a prefix outside the
    category table, one whose id is not in the catalog, or one whose value
    is false while the response it replaces (if any) was false too. *)
Theorem calculate_profile_score_ignores (self : PPTDesignerSystem)
    (X : string) (v : value) (d : option string) (t : datetime) :
  category_mapping !! prefix_of X = None
  ∨ _find_question self X = None
  ∨ (truthy v = false
     ∧ ∀ r0, user_responses self !! X = Some r0 → truthy (response r0) = false) →
  user_responses (submit_response self X v d t).1 !! X
  = Some {| ur_question_id := X; response := v;
            additional_details := d; timestamp := t |}
  ∧ calculate_profile_score (submit_response self X v d t).1
    = calculate_profile_score self.
Proof.
  intros Hno. split; [apply submit_response_lookup|].
  assert (∀ r1, (r1 = {| ur_question_id := X; response := v;
                         additional_details := d; timestamp := t |}
                 ∨ user_responses self !! X = Some r1) →
                ∀ c, ¬ contributes self c (X, r1)) as Hidle.
  { intros r1 Hr1 c (Hm & [q Hq] & Htr); simpl in *.
    destruct Hno as [Hno|[Hno|[Hnew Hold]]]; [congruence..|].
    destruct Hr1 as [->|Hr1]; simpl in *; [congruence|].
    rewrite (Hold r1 Hr1) in Htr. done. }
  apply calculate_profile_score_totals; [done| |].
  - intros c Hc.
    pose proof (category_total_submit self X v d t c) as Hsub. cbv zeta in Hsub.
    rewrite turn_share_zero in Hsub by (apply Hidle; by left).
    destruct (user_responses self !! X) as [r0|] eqn:HX; cbn [from_option] in Hsub.
    + rewrite turn_share_zero in Hsub by (apply Hidle; by right).
      by rewrite !Qcplus_0_r in Hsub.
    + by rewrite !Qcplus_0_r in Hsub.
  - apply overflow_after_submit.
    + intros [[c Hc] _]. by apply (Hidle _ (or_introl eq_refl) c).
    + intros r0 Hr0 [[c Hc] _]. by apply (Hidle r0 (or_intror Hr0) c).
Qed.

Lemma calculate_profile_score_ignores_witness :
  calculate_profile_score (answered scenario_system "q9.9.9" (VStr "x"))
  = calculate_profile_score scenario_system.
Proof.
  apply (calculate_profile_score_ignores scenario_system "q9.9.9" (VStr "x") None 0%Z).
  left. by vm_compute.
Defined.

(** X11. A true response to a catalog question that had no response adds
    a tenth of the question's weight to the running total of the
    question's category and nothing to the other categories; when the
    configuration names the six maxima and its weights convert to floats,
    the category's new score is the capped double of the new total. *)
Theorem calculate_profile_score_after_answer (self : PPTDesignerSystem)
    (X : string) (v : value) (d : option string) (t : datetime)
    (c : string) (q_data : QData) :
  user_responses self !! X = None →
  category_mapping !! prefix_of X = Some c →
  _find_question self X = Some q_data →
  truthy v = true →
  let self' := (submit_response self X v d t).1 in
  let share := (Qc_of_Z (qd_weight q_data) / Qc_of_Z 10)%Qc in
  category_total self' c = (category_total self c + share)%Qc
  ∧ (∀ c', c' ≠ c → category_total self' c' = category_total self c')
  ∧ (∀ mx, covers_categories (config self) →
           float_weights (config self) →
           weight_distribution (config self) !! c = Some mx →
           ∃ scores', calculate_profile_score self' = Ok scores'
                      ∧ scores' !! c
                        = Some (py_min (2 * (category_total self c + share)) mx)).
Proof.
  intros Hfresh Hmap Hfind Htrue self' share.
  assert (∀ c', category_total self' c'
                = (category_total self c'
                   + turn_share self c'
                       (X, {| ur_question_id := X; response := v;
                              additional_details := d; timestamp := t |}))%Qc)
    as Htot.
  { intros c'. pose proof (category_total_submit self X v d t c') as Hsub.
    simpl in Hsub. rewrite Hfresh in Hsub. simpl in Hsub.
    by rewrite Qcplus_0_r in Hsub. }
  assert (category_total self' c = (category_total self c + share)%Qc) as Hc.
  { rewrite Htot. f_equal. unfold turn_share.
    rewrite decide_True by (split_and!; simpl; eauto).
    unfold tenth_of_weight, weight_of. simpl. by rewrite Hfind. }
  split_and!; [done| |].
  - intros c' Hne. rewrite Htot. unfold turn_share.
    rewrite decide_False; [by rewrite Qcplus_0_r|].
    intros (Hm & _); simpl in Hm. congruence.
  - intros mx Hcov Hfw Hmx.
    destruct (calculate_profile_score_formula self' Hcov Hfw)
      as (scores' & Hrun & _ & Hval).
    exists scores'. split; [done|].
    rewrite (Hval c mx) by eauto using category_mapping_range.
    by rewrite Hc, (Qcmult_comm 2).
Qed.

Lemma calculate_profile_score_after_answer_witness :
  let self := init scenario_config in
  category_total (answered self "q1.1.1" (VStr "교육")) "content_goals"
  = (category_total self "content_goals" + Qc_of_Z 8 / Qc_of_Z 10)%Qc.
Proof.
  intros self.
  apply (calculate_profile_score_after_answer self "q1.1.1" (VStr "교육") None 0%Z
           "content_goals" (sample_question "q1.1.1" true 8)); by vm_compute.
Defined.

(** ** TemplateSearchEngine and the matcher *)

Lemma lower_ascii_idempotent (c : ascii) : lower_ascii (lower_ascii c) = lower_ascii c.
Proof. destruct c as [[] [] [] [] [] [] [] []]; by vm_compute. Qed.

Lemma lower_idempotent (s : string) : lower (lower s) = lower s.
Proof.
  induction s as [|c s IH]; [done|]. simpl.
  by rewrite lower_ascii_idempotent, IH.
Qed.

(** X12. [filter_by_style] keeps, in their order, exactly the templates
    for which the matcher's style factor fires when the query is the stored
    style answer, and [filter_by_color] those for which the color factor
    fires. *)
Theorem filters_agree_with_matcher `{!UnicodeLower} (self : PPTDesignerSystem)
    (templates : list Template) (style color : string)
    (r_style r_color : UserResponse) :
  user_responses self !! STYLE_Q = Some r_style →
  response r_style = VStr style →
  user_responses self !! COLOR_Q = Some r_color →
  response r_color = VStr color →
  filter_by_style templates style
  = filter (λ t, style_match self t = Ok (Qc_of_Z 25)) templates
  ∧ filter_by_color templates color
    = filter (λ t, color_match self t = Qc_of_Z 20) templates.
Proof.
  intros Hs Hsv Hc Hcv. split; apply list_filter_iff; intros t.
  - rewrite (style_match_text self t r_style style Hs Hsv).
    case_bool_decide; by split.
  - unfold color_match, plain_match. rewrite Hc, Hcv. simpl.
    case_bool_decide; by split.
Qed.

Lemma filters_agree_with_matcher_witness :
  user_responses (styled_system (VStr "Minimal")) !! STYLE_Q
  = Some {| ur_question_id := STYLE_Q; response := VStr "Minimal";
            additional_details := None; timestamp := 0%Z |}
  ∧ ∀ U : UnicodeLower,
  filter_by_style mock_templates "Minimal"
  = filter (λ t, style_match (styled_system (VStr "Minimal")) t = Ok (Qc_of_Z 25))
           mock_templates
  ∧ filter_by_color mock_templates "beige_orange"
    = filter (λ t, color_match (styled_system (VStr "Minimal")) t = Qc_of_Z 20)
             mock_templates.
Proof.
  split; [done|]. intros U.
  by apply (filters_agree_with_matcher (styled_system (VStr "Minimal")) mock_templates
              "Minimal" "beige_orange"
              {| ur_question_id := STYLE_Q; response := VStr "Minimal";
                 additional_details := None; timestamp := 0%Z |}
              {| ur_question_id := COLOR_Q; response := VStr "beige_orange";
                 additional_details := None; timestamp := 0%Z |}).
Defined.

(** X13. Two ASCII queries that differ in letter case only select the
    same templates, filtering twice is filtering once, and the style
    filter and the color filter can be applied in either order. *)
Theorem filters_compose `{!UnicodeLower} (templates : list Template)
    (style color : string) :
  (∀ style', is_ascii style = true → is_ascii style' = true →
             lower style = lower style' →
             filter_by_style templates style = filter_by_style templates style')
  ∧ filter_by_style (filter_by_style templates style) style
    = filter_by_style templates style
  ∧ filter_by_color (filter_by_style templates style) color
    = filter_by_style (filter_by_color templates color) style.
Proof.
  unfold filter_by_style, filter_by_color, str_lower. split_and!.
  - intros style' -> -> ->. done.
  - rewrite list_filter_filter. apply list_filter_iff. tauto.
  - rewrite !list_filter_filter. apply list_filter_iff. tauto.
Qed.

(** ** RecommendationRanker and the export *)

Lemma build_recommendations_inv `{!UnicodeLower} (self : PPTDesignerSystem)
    (catalog : list Template) (unsorted : list TemplateRecommendation) :
  build_recommendations self catalog = Ok unsorted →
  Forall2 (recommends self) catalog unsorted.
Proof.
  revert unsorted. induction catalog as [|template catalog IH];
    intros unsorted; simpl.
  - intros [= <-]. constructor.
  - destruct (calculate_template_match_score self template) as [score|] eqn:Hs;
      simpl; [|done].
    destruct (build_recommendations self catalog) as [recs|]; simpl; [|done].
    intros [= <-]. constructor; [by exists score|]. by apply IH.
Qed.

Lemma match_score_range `{!UnicodeLower} (self : PPTDesignerSystem)
    (template : Template) (score : Qc) :
  calculate_template_match_score self template = Ok score →
  (0 ≤ score ≤ Qc_of_Z 100)%Qc.
Proof.
  unfold calculate_template_match_score.
  destruct (calculate_profile_score self); simpl; [|done].
  destruct (style_match self template) as [style|] eqn:Hstyle; simpl; [|done].
  intros [= <-].
  assert (style = Q2Qc 0 ∨ style = Qc_of_Z 25) as Hsv.
  { destruct (user_responses self !! STYLE_Q) as [r|] eqn:Hr.
    - destruct (response r) as [| | |s|] eqn:Hresp;
        try (by rewrite (style_match_not_text self template r Hr) in Hstyle
              by (by rewrite Hresp)).
      rewrite (style_match_text self template r s Hr Hresp) in Hstyle.
      injection Hstyle as <-. case_bool_decide; auto.
    - rewrite style_match_absent in Hstyle by done.
      injection Hstyle as <-. by left. }
  destruct (factor_sum_bounds style (color_match self template)
              (functionality_match self template)
              (technical_compatibility self template) Hsv
              (plain_match_values _ _ _ _) (plain_match_values _ _ _ _)
              (plain_match_values _ _ _ _)) as [-> Hrange].
  exact Hrange.
Qed.

(** X14. When [generate_recommendations] returns, every returned entry
    is the recommendation built for a template of the catalog, with a score
    between 0 and 100, and a template of the catalog that is not among the
    returned entries scores no higher than any returned entry. *)
Theorem generate_recommendations_best `{!UnicodeLower}
    (self self' : PPTDesignerSystem)
    (catalog : list Template) (out : list TemplateRecommendation) :
  generate_recommendations self catalog = Ok (self', out) →
  (∀ rec, rec ∈ out →
     (∃ template, template ∈ catalog ∧ recommends self template rec)
     ∧ (0 ≤ match_score rec ≤ Qc_of_Z 100)%Qc)
  ∧ (∀ template score,
       template ∈ catalog →
       calculate_template_match_score self template = Ok score →
       make_recommendation template score ∈ out
       ∨ ∀ rec, rec ∈ out → (score ≤ match_score rec)%Qc).
Proof.
  unfold generate_recommendations.
  destruct (build_recommendations self catalog) as [unsorted|] eqn:Hbuild;
    simpl; [|done].
  intros [= <- <-].
  pose proof (build_recommendations_inv self catalog unsorted Hbuild) as Hall.
  pose proof (sort_by_score_desc_perm unsorted) as Hperm.
  pose proof (sort_by_score_desc_sorted unsorted) as Hsorted.
  set (ranked := sort_by_score_desc unsorted) in *.
  split.
  - intros rec Hrec.
    assert (rec ∈ unsorted) as Hin.
    { rewrite <-Hperm. by apply (subseteq_take 10 ranked). }
    apply list_elem_of_lookup in Hin as [i Hi].
    destruct (Forall2_lookup_r _ _ _ _ _ Hall Hi) as (template & Ht & Hrec').
    split.
    + exists template. split; [|done]. apply list_elem_of_lookup; eauto.
    + destruct Hrec' as (score & Hscore & ->). simpl.
      by apply (match_score_range self template).
  - intros template score Ht Hscore.
    apply list_elem_of_lookup in Ht as [i Hi].
    destruct (Forall2_lookup_l _ _ _ _ _ Hall Hi) as (rec0 & Hrec0 & Hrel).
    destruct Hrel as (score' & Hscore' & ->).
    assert (score' = score) as -> by congruence.
    assert (make_recommendation template score ∈ ranked) as Hin.
    { rewrite Hperm. apply list_elem_of_lookup; eauto. }
    rewrite <-(take_drop 10 ranked) in Hin, Hsorted.
    apply elem_of_app in Hin as [Hin|Hin]; [by left|right].
    intros rec Hrec.
    by apply (StronglySorted_app_1_elem_of _ _ _ _ _ Hsorted Hrec Hin).
Qed.

Lemma generate_recommendations_best_witness :
  length sample_catalog = 4%nat
  ∧ ∀ U : UnicodeLower,
      ∃ self' out,
        generate_recommendations (styled_system (VStr "minimal")) sample_catalog
        = Ok (self', out)
        ∧ ∀ rec, rec ∈ out → (0 ≤ match_score rec ≤ Qc_of_Z 100)%Qc.
Proof.
  split; [done|]. intros U.
  destruct (generate_recommendations (styled_system (VStr "minimal")) sample_catalog)
    as [[self' out]|] eqn:Hgen; [|by vm_compute in Hgen].
  exists self', out. split; [done|]. intros rec Hrec.
  by apply (generate_recommendations_best _ _ _ _ Hgen).
Defined.

(** X15. After [generate_recommendations] has returned a list, under a
    configuration that names the six maxima and whose question weights
    convert to floats, [export_user_profile] lists
    name, url and score of the first five entries of that list, the profile
    scores of the store, and for every id the stored value, details and
    time stamp. *)
Theorem export_after_recommendations `{!UnicodeLower}
    (self self' : PPTDesignerSystem)
    (catalog : list Template) (out : list TemplateRecommendation)
    (now_id now_created : datetime) :
  covers_categories (config self) →
  float_weights (config self) →
  generate_recommendations self catalog = Ok (self', out) →
  ∃ profile,
    export_user_profile self' now_id now_created = Ok profile
    ∧ profile_recommendations profile = map export_recommendation (take 5 out)
    ∧ calculate_profile_score self = Ok (profile_scores profile)
    ∧ (∀ id, responses profile !! id
             = export_response <$> user_responses self !! id).
Proof.
  intros Hcov Hfw. unfold generate_recommendations.
  destruct (build_recommendations self catalog) as [unsorted|]; simpl; [|done].
  intros [= <- <-].
  destruct (calculate_profile_score_formula self Hcov Hfw)
    as (scores & Hscores & _).
  unfold export_user_profile.
  rewrite (calculate_profile_score_ext (set_recommendations self _) self) by done.
  rewrite Hscores. simpl. eexists. split; [done|]. simpl. split_and!.
  - by rewrite take_take.
  - done.
  - intros id. apply lookup_fmap.
Qed.

Lemma export_after_recommendations_witness :
  float_weights (config (styled_system (VStr "minimal")))
  ∧ ∀ U : UnicodeLower,
  ∃ profile,
    (generate_recommendations (styled_system (VStr "minimal")) sample_catalog
       ≫= λ out, export_user_profile out.1 7%Z 9%Z) = Ok profile
    ∧ map ex_name (profile_recommendations profile) = ["b"; "d"; "a"; "c"].
Proof.
  split; [apply scenario_float_weights|]. intros U.
  destruct (generate_recommendations (styled_system (VStr "minimal")) sample_catalog)
    as [[self' out]|] eqn:Hgen; [|by vm_compute in Hgen].
  destruct (export_after_recommendations (styled_system (VStr "minimal")) _ _ _
              7%Z 9%Z (sample_covers _ _) scenario_float_weights Hgen)
    as (profile & Hexp & Hrecs & _).
  exists profile. split; [done|]. rewrite Hrecs.
  vm_compute in Hgen. injection Hgen as _ <-. by vm_compute.
Defined.

(** ** PlanGenerator: buckets, failures and the experience level *)

Lemma timeline_keys_cases (s key : string) :
  timeline_keys !! s = Some key →
  (s = "1일" ∧ key = "tight_timeline_1day")
  ∨ (s = "1주" ∧ key = STANDARD_KEY)
  ∨ (s = "1개월" ∧ key = "extended_timeline_1month").
Proof.
  intros Hk. apply elem_of_list_to_map_2 in Hk.
  rewrite !elem_of_cons, elem_of_nil in Hk.
  destruct_or!; simplify_eq; auto.
Qed.

(** X16. With a stored, hashable timeline answer and the roadmaps in
    place, the plan is built from the tight roadmap exactly for the answer
    ["1일"], from the extended roadmap exactly for ["1개월"], and from the
    standard roadmap for everything else; it carries the answer as its
    timeline label. *)
Theorem generate_implementation_plan_bucket (self : PPTDesignerSystem)
    (t : UserResponse) (roadmaps : gmap string Roadmap) :
  user_responses self !! TIMELINE_Q = Some t →
  hashable (response t) = true →
  roadmaps_of (config self) = Ok roadmaps →
  generate_implementation_plan self
  = Ok (roadmap_plan self (response t) roadmaps
          (if decide (response t = VStr "1일") then "tight_timeline_1day"
           else if decide (response t = VStr "1개월") then "extended_timeline_1month"
           else STANDARD_KEY)).
Proof.
  intros Ht Hh Hroad. unfold generate_implementation_plan.
  rewrite Ht, Hroad.
  assert (timeline_key_of (response t)
          = Ok (if decide (response t = VStr "1일") then "tight_timeline_1day"
                else if decide (response t = VStr "1개월")
                     then "extended_timeline_1month"
                     else STANDARD_KEY)) as ->; [|done].
  unfold timeline_key_of. rewrite Hh.
  destruct (response t) as [| | |s|]; try done.
  destruct (timeline_keys !! s) as [key|] eqn:Hkey; simpl.
  - apply timeline_keys_cases in Hkey. destruct_or!; destruct_and!; by subst.
  - repeat case_decide; simplify_eq; done.
Qed.

Lemma generate_implementation_plan_bucket_witness :
  let self := answered (init plan_config) TIMELINE_Q (VStr "1개월") in
  ∃ plan, generate_implementation_plan self = Ok plan
          ∧ phases plan = ["research"; "design"; "build"; "test"; "polish"]
          ∧ customization_level plan = Some "extensive".
Proof.
  intros self. eexists. split.
  - apply (generate_implementation_plan_bucket self
             {| ur_question_id := TIMELINE_Q; response := VStr "1개월";
                additional_details := None; timestamp := 0%Z |}
             sample_roadmaps); by vm_compute.
  - by vm_compute.
Defined.

(** X17. Without a timeline answer the plan is returned whatever the
    configuration holds.  With an answer the call raises [TypeError] when
    the answer is a list, and otherwise the exception of the walk to the
    roadmaps when that walk fails: [IndexError] with fewer than five phases
    or a fifth phase without sections, [KeyError] when the first section of
    the fifth phase has no [implementation_roadmaps]. *)
Theorem generate_implementation_plan_failures (self : PPTDesignerSystem) :
  (user_responses self !! TIMELINE_Q = None →
   is_Ok (generate_implementation_plan self))
  ∧ (∀ t, user_responses self !! TIMELINE_Q = Some t →
       (hashable (response t) = false →
        generate_implementation_plan self = Raise TypeError)
       ∧ (∀ e, hashable (response t) = true →
               roadmaps_of (config self) = Raise e →
               generate_implementation_plan self = Raise e))
  ∧ ((length (workflow_phases (config self)) < 5)%nat →
     roadmaps_of (config self) = Raise IndexError)
  ∧ (∀ phase, workflow_phases (config self) !! 4%nat = Some phase →
       match sections phase with
       | [] => roadmaps_of (config self) = Raise IndexError
       | section :: _ =>
           roadmaps_of (config self)
           = from_option Ok (Raise (KeyError "implementation_roadmaps"))
                         (implementation_roadmaps section)
       end).
Proof.
  split_and!.
  - intros Hnone. unfold generate_implementation_plan. by rewrite Hnone.
  - intros t Ht. unfold generate_implementation_plan. rewrite Ht. split.
    + intros Hh. unfold timeline_key_of. by rewrite Hh.
    + intros e Hh Hroad. rewrite Hroad.
      unfold timeline_key_of. rewrite Hh. by destruct (response t).
  - intros Hlen. unfold roadmaps_of.
    by rewrite py_index_past_end by lia.
  - intros phase Hphase. unfold roadmaps_of.
    pose proof (py_index_in_range _ 4 phase Hphase) as H4.
    change (Z.of_nat 4) with 4%Z in H4.
    rewrite H4. simpl.
    destruct (sections phase) as [|section rest] eqn:Hsec; [done|].
    pose proof (py_index_in_range (section :: rest) 0 section eq_refl) as H0.
    change (Z.of_nat 0) with 0%Z in H0. rewrite H0. simpl.
    by destruct (implementation_roadmaps section).
Qed.

Lemma generate_implementation_plan_failures_witness :
  generate_implementation_plan
    (answered (init scenario_config) TIMELINE_Q (VStr "1주"))
  = Raise IndexError.
Proof.
  set (self := answered (init scenario_config) TIMELINE_Q (VStr "1주")).
  destruct (generate_implementation_plan_failures self) as (_ & Hraise & Hshort & _).
  apply (Hraise {| ur_question_id := TIMELINE_Q; response := VStr "1주";
                   additional_details := None; timestamp := 0%Z |});
    [by vm_compute|done|].
  apply Hshort. simpl. lia.
Defined.

(** X18. The experience answer is passed through and changes nothing
    else: submitting a response to [q5.1.2] replaces the plan's experience
    level by the submitted value and leaves its timeline, phases, resources
    and customization level, and any exception, as they were. *)
Theorem generate_implementation_plan_experience (self : PPTDesignerSystem)
    (v : value) (d : option string) (t : datetime) :
  generate_implementation_plan (submit_response self EXPERIENCE_Q v d t).1
  = (λ plan, {| timeline := timeline plan;
                experience_level := v;
                phases := phases plan;
                resources_needed := resources_needed plan;
                estimated_hours := estimated_hours plan;
                customization_level := customization_level plan |})
    <$> generate_implementation_plan self.
Proof.
  unfold generate_implementation_plan. simpl.
  rewrite lookup_insert_eq, lookup_insert_ne by done. simpl.
  destruct (user_responses self !! TIMELINE_Q) as [tl|]; [|done].
  destruct (timeline_key_of (response tl)); simpl; [|done].
  by destruct (roadmaps_of (config self)).
Qed.

(** ** The submission endpoints *)

Lemma accepted_has_id (item : Submission) :
  accepted item = true →
  ∃ question_id, sub_question_id item = Some question_id ∧ question_id ≠ "".
Proof.
  unfold accepted. destruct (sub_question_id item) as [qid|]; [|done].
  intros [Hid _]%andb_prop. exists qid. split; [done|].
  by apply bool_decide_eq_true in Hid.
Qed.

Lemma batch_loop_count (system : PPTDesignerSystem) (responses : list Submission)
    (clock : nat → datetime) (n : nat) :
  (batch_loop system responses clock n).2
  = (n + length (filter (λ item, accepted item = true) responses))%nat.
Proof.
  revert system n. induction responses as [|item rest IH]; intros system n; simpl.
  - lia.
  - rewrite filter_cons. destruct (accepted item) eqn:Hacc.
    + destruct (accepted_has_id item Hacc) as (qid & -> & _).
      rewrite IH, decide_True by done. simpl. lia.
    + rewrite decide_False by done.
      destruct (sub_question_id item); by rewrite IH.
Qed.

Lemma batch_loop_frame (system : PPTDesignerSystem) (responses : list Submission)
    (clock : nat → datetime) (n : nat) :
  config (batch_loop system responses clock n).1 = config system
  ∧ recommendations (batch_loop system responses clock n).1
    = recommendations system.
Proof.
  revert system n. induction responses as [|item rest IH]; intros system n; simpl.
  - done.
  - destruct (sub_question_id item); [|apply IH].
    destruct (accepted item); [|apply IH].
    by destruct (IH (submit_response system s (sub_response item)
                       (sub_additional_details item) (clock n)).1 (S n)).
Qed.

(** X19. [submit_batch_responses] answers an empty list with a bad
    request and leaves the system as it is.  Otherwise it never aborts: it
    reports as [submitted_count] the number of items with a non-empty id
    and a value other than [None], as [total_count] the length of the list,
    and the progress of the store it leaves; configuration and cached
    recommendations are untouched. *)
Theorem submit_batch_responses_reply (system : PPTDesignerSystem)
    (responses : list Submission) (clock : nat → datetime) :
  match submit_batch_responses system responses clock with
  | (system', BatchBadRequest) => responses = [] ∧ system' = system
  | (system', BatchOk submitted_count total_count progress) =>
      responses ≠ []
      ∧ submitted_count = length (filter (λ item, accepted item = true) responses)
      ∧ total_count = length responses
      ∧ (submitted_count ≤ total_count)%nat
      ∧ progress = get_progress_percentage system'
      ∧ config system' = config system
      ∧ recommendations system' = recommendations system
  end.
Proof.
  unfold submit_batch_responses. destruct responses as [|item rest]; [done|].
  pose proof (batch_loop_count system (item :: rest) clock 0) as Hcount.
  pose proof (batch_loop_frame system (item :: rest) clock 0) as [Hcfg Hrecs].
  destruct (batch_loop system (item :: rest) clock 0) as [system' n].
  simpl in Hcount, Hcfg, Hrecs. subst n. split_and!; try done.
  apply length_filter.
Qed.

(** X20. After a batch the store holds for every id the value and the
    details of the last accepted item of the list that names the id, and
    what it held before when no accepted item names it: within a batch the
    last write wins, and a rejected item changes nothing. *)
Theorem submit_batch_responses_store (system : PPTDesignerSystem)
    (responses : list Submission) (clock : nat → datetime) (X : string) :
  let seen (r : UserResponse) := (response r, additional_details r) in
  seen <$> user_responses (submit_batch_responses system responses clock).1 !! X
  = match last (filter (λ item, accepted item = true
                                ∧ sub_question_id item = Some X) responses) with
    | Some item => Some (sub_response item, sub_additional_details item)
    | None => seen <$> user_responses system !! X
    end.
Proof.
  intros seen.
  assert (∀ n system, seen <$> user_responses (batch_loop system responses clock n).1 !! X
          = match last (filter (λ item, accepted item = true
                                        ∧ sub_question_id item = Some X) responses) with
            | Some item => Some (sub_response item, sub_additional_details item)
            | None => seen <$> user_responses system !! X
            end) as Hloop.
  { induction responses as [|item rest IH]; intros n sys; simpl; [done|].
    rewrite filter_cons.
    destruct (accepted item) eqn:Hacc.
    - destruct (accepted_has_id item Hacc) as (qid & Hqid & _). rewrite Hqid, IH.
      destruct (decide (qid = X)) as [->|Hne].
      + rewrite decide_True by done. rewrite last_cons.
        destruct (last (filter _ rest)); [done|].
        simpl. by rewrite lookup_insert_eq.
      + rewrite decide_False by (intros [_ [=]]; done).
        destruct (last (filter _ rest)); [done|].
        simpl. by rewrite lookup_insert_ne.
    - rewrite decide_False by (intros [? _]; done).
      destruct (sub_question_id item); apply IH. }
  unfold submit_batch_responses. destruct responses as [|item rest]; [done|].
  specialize (Hloop 0%nat system).
  by destruct (batch_loop system (item :: rest) clock 0).
Qed.

(** X21. A batch of one item leaves the system that the single-submission
    endpoint leaves for the same data and clock reading; the endpoint
    rejects the data exactly when the batch counts no submission, and else
    both report the same progress. *)
Theorem single_item_batch (system : PPTDesignerSystem) (item : Submission)
    (clock : nat → datetime) :
  (api_submit_response system item (clock 0%nat)).1
  = (submit_batch_responses system [item] clock).1
  ∧ match (api_submit_response system item (clock 0%nat)).2 with
    | SubmitBadRequest =>
        accepted item = false
        ∧ (submit_batch_responses system [item] clock).2
          = BatchOk 0 1 (get_progress_percentage system)
    | SubmitOk success question_id progress =>
        success = true
        ∧ sub_question_id item = Some question_id
        ∧ (submit_batch_responses system [item] clock).2 = BatchOk 1 1 progress
    end.
Proof.
  unfold api_submit_response, submit_batch_responses. simpl.
  destruct (sub_question_id item) as [qid|] eqn:Hqid.
  - by destruct (accepted item) eqn:Hacc.
  - simpl. split; [done|]. unfold accepted. by rewrite Hqid.
Qed.

(** ** Customized directions *)

Lemma direction_in_sections_first {D} (directions_of : SectionData → gmap string D)
    (secs : list SectionData) (wanted user_choice : string) :
  (Forall (λ s, section_id s ≠ wanted) secs →
   direction_in_sections directions_of secs wanted user_choice = None)
  ∧ (∀ d, direction_in_sections directions_of secs wanted user_choice = Some d →
       ∃ before section after,
         secs = (before ++ section :: after)%list
         ∧ Forall (λ s, section_id s ≠ wanted) before
         ∧ section_id section = wanted
         ∧ directions_of section !! user_choice = Some d).
Proof.
  induction secs as [|s secs [IHnone IHsome]]; simpl.
  - split; [done|]. intros d [=].
  - case_decide as Hid; split.
    + intros Hall. by apply Forall_cons_1 in Hall as [? _].
    + intros d Hd. exists [], s, secs. by split_and!.
    + intros Hall. apply Forall_cons_1 in Hall as [_ ?]. auto.
    + intros d Hd. destruct (IHsome d Hd) as (before & section & after & -> & ? & ? & ?).
      exists (s :: before), section, after. split_and!; try done. by constructor.
Qed.

(** X22. For a phase number of at least 1, [get_customized_direction]
    raises [IndexError] when there is no such phase and otherwise returns
    without error: the empty result when no section of the phase has the
    given id, and a direction only if it is the one configured, under the
    given choice, in the first section of the phase that has the id. *)
Theorem get_customized_direction_result {D}
    (directions_of : SectionData → gmap string D) (self : PPTDesignerSystem)
    (phase_id : Z) (wanted user_choice : string) :
  (1 ≤ phase_id)%Z →
  match workflow_phases (config self) !! Z.to_nat (phase_id - 1) with
  | None =>
      get_customized_direction directions_of self phase_id wanted user_choice
      = Raise IndexError
  | Some phase =>
      ∃ found,
        get_customized_direction directions_of self phase_id wanted user_choice
        = Ok found
        ∧ (Forall (λ s, section_id s ≠ wanted) (sections phase) → found = None)
        ∧ (∀ d, found = Some d →
             ∃ before section after,
               sections phase = (before ++ section :: after)%list
               ∧ Forall (λ s, section_id s ≠ wanted) before
               ∧ section_id section = wanted
               ∧ directions_of section !! user_choice = Some d)
  end.
Proof.
  intros Hpos. unfold get_customized_direction.
  destruct (workflow_phases (config self) !! Z.to_nat (phase_id - 1))
    as [phase|] eqn:Hphase.
  - pose proof (py_index_in_range _ _ _ Hphase) as Hidx.
    rewrite Z2Nat.id in Hidx by lia. rewrite Hidx. simpl.
    eexists. split; [done|]. apply direction_in_sections_first.
  - apply lookup_ge_None in Hphase. by rewrite py_index_past_end by lia.
Qed.

Lemma get_customized_direction_result_witness :
  let directions_of (s : SectionData) : gmap string string :=
    {[ "교육" := "structured lessons" ]} in
  get_customized_direction directions_of (init two_phase_config) 1 "s" "교육"
  = Ok (Some "structured lessons")
  ∧ get_customized_direction directions_of (init two_phase_config) 1 "t" "교육"
    = Ok None
  ∧ get_customized_direction directions_of (init two_phase_config) 3 "s" "교육"
    = Raise IndexError.
Proof.
  intros directions_of.
  pose proof (get_customized_direction_result directions_of
                (init two_phase_config) 3 "s" "교육") as Hpast.
  split_and!; [by vm_compute | by vm_compute |]. apply Hpast. lia.
Defined.
